(** * Shallow embedding of the Kinesis ingestion core of forex-champion

    Sources: src/back_end/src/kinesis.py (KinesisProducer, KinesisConsumer),
    consumer_process.py (ForexConsumerProcessed), consumer_raw.py
    (ForexConsumerRaw) and producer.py (ForexProducer).  The code is
    Python 2 (boto, [__metaclass__]): [/] on two ints is floor division. *)

From Stdlib Require Import ZArith QArith String Ascii List Lia.
From stdpp Require Import base gmap strings.

Import ListNotations.
Open Scope Z_scope.

(** Python string slicing [s[:n]] and [s[n:]] (clamped, never raising). *)
Definition py_slice_to (s : string) (n : nat) : string := substring 0 n s.
Definition py_slice_from (s : string) (n : nat) : string :=
  substring n (String.length s - n) s.


(** ** Python values and exceptions used by the code *)

(** The exceptions the modelled code can raise or catch. *)
Inductive exn :=
| KeyError
| IndexError
| TypeError
| ValueError
| NameError
| ProvisionedThroughputExceededException
| RequestException.

Definition exn_eqb (a b : exn) : bool :=
  match a, b with
  | KeyError, KeyError | IndexError, IndexError | TypeError, TypeError
  | ValueError, ValueError | NameError, NameError
  | ProvisionedThroughputExceededException, ProvisionedThroughputExceededException
  | RequestException, RequestException => true
  | _, _ => false
  end.

(** A Python computation that returns a value or raises. *)
Inductive result (A : Type) :=
| Ok (a : A)
| Raise (e : exn).
Arguments Ok {A} a.
Arguments Raise {A} e.

(** ** The [json] module: decoded values, [json.loads], [json.dumps] *)
Module Json.

(** A decoded JSON document; a number keeps its literal text. *)
#[local] Set Warnings "-register-all".
Inductive json :=
| JNull
| JBool (b : bool)
| JNumber (lit : string)
| JString (s : string)
| JArray (l : list json)
| JObject (kv : list (string * json)).

Definition dquote : ascii := ascii_of_nat 34.
Definition bslash : ascii := ascii_of_nat 92.

Definition is_ws (c : ascii) : bool :=
  match nat_of_ascii c with 32 | 9 | 10 | 13 => true | _ => false end%nat.
Definition is_digit (c : ascii) : bool :=
  (48 <=? nat_of_ascii c)%nat && (nat_of_ascii c <=? 57)%nat.
Definition is_hex (c : ascii) : bool :=
  is_digit c || (97 <=? nat_of_ascii c)%nat && (nat_of_ascii c <=? 102)%nat
             || (65 <=? nat_of_ascii c)%nat && (nat_of_ascii c <=? 70)%nat.

Fixpoint skip_ws (l : list ascii) : list ascii :=
  match l with
  | c :: t => if is_ws c then skip_ws t else l
  | [] => []
  end.

Fixpoint span_digits (l : list ascii) : list ascii * list ascii :=
  match l with
  | c :: t => if is_digit c then let (d, r) := span_digits t in (c :: d, r)
              else ([], l)
  | [] => ([], [])
  end.

(** The escape [\c] with [c] one of the single-character escapes. *)
Definition simple_escape (c : ascii) : option ascii :=
  match nat_of_ascii c with
  | 34 => Some dquote | 92 => Some bslash | 47 => Some "/"%char
  | 98 => Some (ascii_of_nat 8) | 102 => Some (ascii_of_nat 12)
  | 110 => Some (ascii_of_nat 10) | 114 => Some (ascii_of_nat 13)
  | 116 => Some (ascii_of_nat 9)
  | _ => None
  end%nat.

(** Body of a string literal after its opening quote; a [\uXXXX] escape
    is kept as its six characters. Control characters are refused, as by
    the default (strict) decoder. *)
Fixpoint parse_str_body (l : list ascii) (acc : list ascii)
    : option (string * list ascii) :=
  match l with
  | [] => None
  | c :: t =>
      if Ascii.eqb c dquote then Some (string_of_list_ascii (rev acc), t)
      else if Ascii.eqb c bslash then
        match t with
        | e :: t' =>
            match simple_escape e with
            | Some d => parse_str_body t' (d :: acc)
            | None =>
                match e, t' with
                | "u"%char, h1 :: h2 :: h3 :: h4 :: t'' =>
                    if is_hex h1 && is_hex h2 && is_hex h3 && is_hex h4
                    then parse_str_body t'' (h4 :: h3 :: h2 :: h1 :: e :: c :: acc)
                    else None
                | _, _ => None
                end
            end
        | [] => None
        end
      else if (nat_of_ascii c <? 32)%nat then None
      else parse_str_body t (c :: acc)
  end.

(** [-?(0|[1-9][0-9]* )(.[0-9]+)?([eE][-+]?[0-9]+)?], and the constants
    [NaN], [Infinity], [-Infinity] that Python's decoder also accepts. *)
Definition parse_number (l : list ascii) : option (string * list ascii) :=
  match l with
  | "N"%char :: "a"%char :: "N"%char :: r => Some ("NaN"%string, r)
  | "I"%char :: "n"%char :: "f"%char :: "i"%char :: "n"%char :: "i"%char
      :: "t"%char :: "y"%char :: r => Some ("Infinity"%string, r)
  | "-"%char :: "I"%char :: "n"%char :: "f"%char :: "i"%char :: "n"%char
      :: "i"%char :: "t"%char :: "y"%char :: r => Some ("-Infinity"%string, r)
  | _ =>
    let (sgn, l1) := match l with
                     | "-"%char :: t => (["-"%char], t)
                     | _ => ([], l)
                     end in
    let ip := match l1 with
              | "0"%char :: t => Some (["0"%char], t)
              | c :: _ => if is_digit c then Some (span_digits l1) else None
              | [] => None
              end in
    match ip with
    | None => None
    | Some (ids, l2) =>
      let fp := match l2 with
                | "."%char :: t =>
                    let (fds, r) := span_digits t in
                    match fds with [] => None | _ => Some ("."%char :: fds, r) end
                | _ => Some ([], l2)
                end in
      match fp with
      | None => None
      | Some (fds, l3) =>
        let ep := match l3 with
                  | e :: t =>
                      if Ascii.eqb e "e"%char || Ascii.eqb e "E"%char then
                        let (s, t') := match t with
                                       | "+"%char :: t'' => (["+"%char], t'')
                                       | "-"%char :: t'' => (["-"%char], t'')
                                       | _ => ([], t)
                                       end in
                        let (eds, r) := span_digits t' in
                        match eds with [] => None | _ => Some (e :: s ++ eds, r) end
                      else Some ([], l3)
                  | [] => Some ([], l3)
                  end in
        match ep with
        | None => None
        | Some (eds, r) => Some (string_of_list_ascii (sgn ++ ids ++ fds ++ eds), r)
        end
      end
    end
  end.

(** Recursive descent; every call spends one unit of [fuel]. *)
Fixpoint parse_value (fuel : nat) (l : list ascii) : option (json * list ascii) :=
  match fuel with
  | O => None
  | S f =>
    match skip_ws l with
    | [] => None
    | c :: t =>
      if Ascii.eqb c "{"%char then
        match skip_ws t with
        | "}"%char :: r => Some (JObject [], r)
        | _ => parse_members f t []
        end
      else if Ascii.eqb c "["%char then
        match skip_ws t with
        | "]"%char :: r => Some (JArray [], r)
        | _ => parse_elements f t []
        end
      else if Ascii.eqb c dquote then
        match parse_str_body t [] with
        | Some (s, r) => Some (JString s, r)
        | None => None
        end
      else
        match c :: t with
        | "t"%char :: "r"%char :: "u"%char :: "e"%char :: r => Some (JBool true, r)
        | "f"%char :: "a"%char :: "l"%char :: "s"%char :: "e"%char :: r =>
            Some (JBool false, r)
        | "n"%char :: "u"%char :: "l"%char :: "l"%char :: r => Some (JNull, r)
        | _ =>
          match parse_number (c :: t) with
          | Some (lit, r) => Some (JNumber lit, r)
          | None => None
          end
        end
    end
  end
with parse_members (fuel : nat) (l : list ascii) (acc : list (string * json))
    : option (json * list ascii) :=
  match fuel with
  | O => None
  | S f =>
    match skip_ws l with
    | q :: t =>
      if Ascii.eqb q dquote then
        match parse_str_body t [] with
        | Some (k, r) =>
          match skip_ws r with
          | ":"%char :: r' =>
            match parse_value f r' with
            | Some (v, r'') =>
              match skip_ws r'' with
              | ","%char :: r3 => parse_members f r3 ((k, v) :: acc)
              | "}"%char :: r3 => Some (JObject (rev ((k, v) :: acc)), r3)
              | _ => None
              end
            | None => None
            end
          | _ => None
          end
        | None => None
        end
      else None
    | [] => None
    end
  end
with parse_elements (fuel : nat) (l : list ascii) (acc : list json)
    : option (json * list ascii) :=
  match fuel with
  | O => None
  | S f =>
    match parse_value f l with
    | Some (v, r) =>
      match skip_ws r with
      | ","%char :: r' => parse_elements f r' (v :: acc)
      | "]"%char :: r' => Some (JArray (rev (v :: acc)), r')
      | _ => None
      end
    | None => None
    end
  end.

(** [json.loads]: a document followed only by whitespace, else
    [ValueError]. *)
Definition loads (s : string) : result json :=
  let l := list_ascii_of_string s in
  match parse_value (3 * List.length l + 3)%nat l with
  | Some (v, r) => match skip_ws r with [] => Ok v | _ => Raise ValueError end
  | None => Raise ValueError
  end.


(** [json.dumps] with its default [", "] and [": "] separators and
    [ensure_ascii]; a number is written as its literal (Python re-prints a
    float with [repr]), an object in the order of its members. *)
Definition hex_digit (n : nat) : ascii :=
  if (n <? 10)%nat then ascii_of_nat (48 + n) else ascii_of_nat (87 + n).

Definition escape_char (c : ascii) : list ascii :=
  let n := nat_of_ascii c in
  if Ascii.eqb c dquote then [bslash; dquote]
  else if Ascii.eqb c bslash then [bslash; bslash]
  else if (n =? 10)%nat then [bslash; "n"%char]
  else if (n =? 13)%nat then [bslash; "r"%char]
  else if (n =? 9)%nat then [bslash; "t"%char]
  else if (n =? 8)%nat then [bslash; "b"%char]
  else if (n =? 12)%nat then [bslash; "f"%char]
  else if (n <? 32)%nat || (127 <? n)%nat then
    [bslash; "u"%char; "0"%char; "0"%char; hex_digit (n / 16); hex_digit (n mod 16)]
  else [c].

Definition dumps_string (s : string) : string :=
  String dquote (string_of_list_ascii
    (List.concat (List.map escape_char (list_ascii_of_string s)))
    ++ String dquote EmptyString)%string.

Fixpoint dumps (v : json) : string :=
  match v with
  | JNull => "null"
  | JBool true => "true"
  | JBool false => "false"
  | JNumber lit => lit
  | JString s => dumps_string s
  | JArray l => "[" ++ String.concat ", " (List.map dumps l) ++ "]"%string
  | JObject kv =>
      "{" ++ String.concat ", "
               (List.map (fun '(k, x) => dumps_string k ++ ": " ++ dumps x) kv)
          ++ "}"
  end%string.

(** [v[k]] with a string key: a dict keeps the last of duplicate keys. *)
Definition getitem_str (v : json) (k : string) : result json :=
  match v with
  | JObject kv =>
      match List.find (fun '(k', _) => String.eqb k k') (rev kv) with
      | Some (_, x) => Ok x
      | None => Raise KeyError
      end
  | _ => Raise TypeError
  end.

(** [v[0]]: a dict has only string keys, so [0] is a missing key. *)
Definition getitem_zero (v : json) : result json :=
  match v with
  | JArray (x :: _) => Ok x
  | JArray [] => Raise IndexError
  | JObject _ => Raise KeyError
  | JString (String c _) => Ok (JString (String c EmptyString))
  | JString EmptyString => Raise IndexError
  | _ => Raise TypeError
  end.

End Json.

Definition result_bind {A B} (m : result A) (k : A -> result B) : result B :=
  match m with Ok a => k a | Raise e => Raise e end.
Notation "'let?' x ':=' m 'in' k" := (result_bind m (fun x => k))
  (at level 200, x name, m at level 100, k at level 200).

(** A record as returned by boto's [get_records] (Data base64-decoded). *)
Record kinesis_record := {
  Data : string;
  PartitionKey : string;
  SequenceNumber : string
}.

(** [check_record_validity] of ForexConsumerProcessed (consumer_process.py
    30-44) and ForexConsumerRaw (consumer_raw.py 29-43), which are the
    same code:
<<
        try:
            json.loads(record['Data'])['prices'][0]
            return True
        except KeyError:
            return False
>> *)
Definition forex_check_record_validity (record : kinesis_record) : result bool :=
  match (let? v := Json.loads (Data record) in
         let? p := Json.getitem_str v "prices" in
         Json.getitem_zero p) with
  | Ok _ => Ok true
  | Raise KeyError => Ok false
  | Raise e => Raise e
  end.

(** ** Python [str] helpers *)

(** [str.split()]: runs of whitespace separate, empty fields dropped. *)
Definition py_is_space (c : ascii) : bool :=
  match nat_of_ascii c with 32 | 9 | 10 | 11 | 12 | 13 => true | _ => false end%nat.

Fixpoint split_ws_aux (l : list ascii) (cur : list ascii) : list string :=
  match l with
  | [] => match cur with [] => [] | _ => [string_of_list_ascii (rev cur)] end
  | c :: t =>
      if py_is_space c then
        match cur with
        | [] => split_ws_aux t []
        | _ => string_of_list_ascii (rev cur) :: split_ws_aux t []
        end
      else split_ws_aux t (c :: cur)
  end.
Definition py_split (s : string) : list string := split_ws_aux (list_ascii_of_string s) [].

(** [str.split(sep)] with a one-character separator. *)
Fixpoint split_sep_aux (sep : ascii) (l : list ascii) (cur : list ascii) : list string :=
  match l with
  | [] => [string_of_list_ascii (rev cur)]
  | c :: t =>
      if Ascii.eqb c sep then string_of_list_ascii (rev cur) :: split_sep_aux sep t []
      else split_sep_aux sep t (c :: cur)
  end.
Definition py_split_sep (s : string) (sep : ascii) : list string :=
  split_sep_aux sep (list_ascii_of_string s) [].

(** [lst[0]] on a list of strings. *)
Definition py_index0 (l : list string) : result string :=
  match l with x :: _ => Ok x | [] => Raise IndexError end.

(** [str(n)] for an int. *)
Definition digit_char (d : Z) : ascii := ascii_of_nat (48 + Z.to_nat d).
Fixpoint dec_aux (fuel : nat) (n : Z) (acc : list ascii) : list ascii :=
  let acc' := digit_char (n mod 10) :: acc in
  match fuel with
  | O => acc'
  | S f => if n <? 10 then acc' else dec_aux f (n / 10) acc'
  end.
Definition py_str_nat (n : Z) : string :=
  string_of_list_ascii (dec_aux (Z.to_nat (Z.log2 n)) n []).
Definition py_str_int (n : Z) : string :=
  if n <? 0 then ("-" ++ py_str_nat (- n))%string else py_str_nat n.

(** The two-digit fields of [strftime] ([%m], [%d], [%H], [%M]). *)
Definition pad2 (n : Z) : string :=
  if n <? 10 then ("0" ++ py_str_nat n)%string else py_str_nat n.

Definition newline : string := String (ascii_of_nat 10) EmptyString.

(** ** [datetime.fromtimestamp] and [strftime] *)
Module PyTime.

Record datetime := {
  year : Z; month : Z; day : Z; hour : Z; minute : Z; second : Z
}.

(** Proleptic Gregorian date of a day count from 1970-01-01. *)
Definition civil_from_days (days : Z) : Z * Z * Z :=
  let z := days + 719468 in
  let era := z / 146097 in
  let doe := z - era * 146097 in
  let yoe := (doe - doe / 1460 + doe / 36524 - doe / 146096) / 365 in
  let y := yoe + era * 400 in
  let doy := doe - (365 * yoe + yoe / 4 - yoe / 100) in
  let mp := (5 * doy + 2) / 153 in
  let d := doy - (153 * mp + 2) / 5 + 1 in
  let m := if mp <? 10 then mp + 3 else mp - 9 in
  (if m <=? 2 then y + 1 else y, m, d).

(** Seconds since the epoch shifted into the host's local zone, which is
    [utcoffset t] seconds ahead of UTC at the instant [t]. *)
Definition local_seconds (utcoffset : Z -> Z) (t : Z) : Z := t + utcoffset t.

(** The local calendar date of the instant [t]. *)
Definition local_date (utcoffset : Z -> Z) (t : Z) : Z * Z * Z :=
  civil_from_days (local_seconds utcoffset t / 86400).

(** [datetime.fromtimestamp(t)] for whole seconds [t]; years outside
    [1..9999] raise. *)
Definition fromtimestamp (utcoffset : Z -> Z) (t : Z) : result datetime :=
  let l := local_seconds utcoffset t in
  let '(y, m, d) := civil_from_days (l / 86400) in
  let sod := l mod 86400 in
  if (1 <=? y) && (y <=? 9999) then
    Ok {| year := y; month := m; day := d; hour := sod / 3600;
          minute := (sod / 60) mod 60; second := sod mod 60 |}
  else Raise ValueError.

Fixpoint strftime_aux (dt : datetime) (fmt : list ascii) : string :=
  match fmt with
  | "%"%char :: c :: t =>
      (match c with
       | "Y"%char => py_str_nat (year dt)
       | "m"%char => pad2 (month dt)
       | "d"%char => pad2 (day dt)
       | "H"%char => pad2 (hour dt)
       | "M"%char => pad2 (minute dt)
       | "S"%char => pad2 (second dt)
       | _ => String "%" (String c EmptyString)
       end ++ strftime_aux dt t)%string
  | c :: t => String c (strftime_aux dt t)
  | [] => EmptyString
  end.

(** [dt.strftime(fmt)]; Python 2.7 refuses years before 1900. *)
Definition strftime (dt : datetime) (fmt : string) : result string :=
  if year dt <? 1900 then Raise ValueError
  else Ok (strftime_aux dt (list_ascii_of_string fmt)).

End PyTime.

(** ** The S3 bucket, the clock and the host's time zone *)

(** boto calls on a bucket: [get_key] (a HEAD request),
    [get_contents_as_string], [new_key] and [set_contents_from_string]. *)
Inductive bucket_op :=
| GetKey (k : string)
| GetContents (k : string)
| NewKey (k : string)
| SetContents (k : string) (s : string).

Definition op_key (o : bucket_op) : string :=
  match o with GetKey k | GetContents k | NewKey k | SetContents k _ => k end.

Record world := {
  bucket : gmap string string;
  now : Z;
  utcoffset : Z -> Z;
  ops : list bucket_op
}.

Definition log_op (o : bucket_op) (w : world) : world :=
  {| bucket := bucket w; now := now w; utcoffset := utcoffset w;
     ops := ops w ++ [o] |}.

(** [key.set_contents_from_string(s)]: create or overwrite the object. *)
Definition set_contents (k s : string) (w : world) : world :=
  {| bucket := <[k := s]> (bucket w); now := now w; utcoffset := utcoffset w;
     ops := ops w ++ [SetContents k s] |}.

(** [time.sleep(n)]. *)
Definition advance (n : Z) (w : world) : world :=
  {| bucket := bucket w; now := now w + n; utcoffset := utcoffset w; ops := ops w |}.

(** ** ForexConsumerRaw (consumer_raw.py) *)
Module Raw.

(** [check_record_validity] (lines 29-43). *)
Definition check_record_validity := forex_check_record_validity.

(** [process_record] (lines 45-53): [json.dumps(record)]. *)
Definition process_record (record : kinesis_record) : result string :=
  Ok (Json.dumps (Json.JObject
        [("Data", Json.JString (Data record));
         ("PartitionKey", Json.JString (PartitionKey record));
         ("SequenceNumber", Json.JString (SequenceNumber record))])).

(** [send_records] (lines 55-73); both [time.time()] calls read [now]. *)
Definition send_records (processed_records : list string) (w : world)
    : world * result unit :=
  match (let? dt := PyTime.fromtimestamp (utcoffset w) (now w) in
         PyTime.strftime dt "%Y %m %d") with
  | Raise e => (w, Raise e)
  | Ok s =>
    let record_time := py_split s in
    let all_records_together := String.concat newline processed_records in
    match record_time with
    | y :: m :: d :: _ =>
        let new_key_name :=
          (y ++ "/" ++ m ++ "/" ++ d ++ "/FOREX-RAW-DATA-" ++ py_str_int (now w))%string in
        let w1 := log_op (NewKey new_key_name) w in
        (set_contents new_key_name all_records_together w1, Ok tt)
    | _ => (w, Raise IndexError)
    end
  end.

End Raw.

(** ** ForexConsumerProcessed (consumer_process.py) *)
Module Processed.

(** [check_record_validity] (lines 30-44). *)
Definition check_record_validity := forex_check_record_validity.

(** [process_record] (lines 46-73) and [send_record] (lines 75-120). *)
Section ProcessRecord.

(** Python floats are kept abstract: [fone] is the literal [1] and [fdiv]
    Python's [/] on them. *)
Variable F : Type.
Variable fone : F.
Variable fdiv : F -> F -> F.

(** [exchange_data_json['prices'][0]] after decoding: the four fields read
    by lines 54-57. *)
Record instrument_data := {
  instrument : string;
  time : Z;
  bid : F;
  ask : F
}.

(** The tuple [(ticker_name, rate_time, bid, ask)] returned at line 73. *)
Record processed_record := {
  ticker_name : string;
  rate_time : Z;
  pbid : F;
  pask : F
}.

Definition process_record (d : instrument_data) : processed_record :=
  let name := instrument d in
  if String.eqb (py_slice_to name 3) "USD" then
    {| ticker_name := py_slice_from name 4; rate_time := time d;
       pbid := fdiv fone (bid d); pask := fdiv fone (ask d) |}
  else
    {| ticker_name := py_slice_to name 3; rate_time := time d;
       pbid := bid d; pask := ask d |}.

(** [str(float)], as used by ["{}".format(bid)]. *)
Variable float_str : F -> string.

(** Lines 83-84: [datetime.fromtimestamp(int(int(UNIX_time) / 1000000))
    .strftime("%Y-%m-%d %H:%M")]; [/] on ints floors in Python 2. *)
Definition format_record_time (utcoff : Z -> Z) (UNIX_time : Z) : result string :=
  let? dt := PyTime.fromtimestamp utcoff (UNIX_time / 1000000) in
  PyTime.strftime dt "%Y-%m-%d %H:%M".

(** Lines 84 and 96: [time_list = record_time.split()[0].split("-")] and
    ["{}/{}/{}/{}/TODAYS-DATA.csv".format(instrument_name, *time_list)]. *)
Definition key_path_of (instrument_name record_time : string) : result string :=
  let? first := py_index0 (py_split record_time) in
  match py_split_sep first "-"%char with
  | y :: m :: d :: _ =>
      Ok (instrument_name ++ "/" ++ y ++ "/" ++ m ++ "/" ++ d ++ "/TODAYS-DATA.csv")%string
  | _ => Raise IndexError
  end.

(** Lines 87-93: the CSV row ["{},{},{},{}\n"] with the time replaced by
    [record_time]. *)
Definition row_of (pr : processed_record) (record_time : string) : string :=
  (ticker_name pr ++ "," ++ record_time ++ "," ++ float_str (pbid pr) ++ ","
     ++ float_str (pask pr) ++ newline)%string.

Definition send_record (processed_record : processed_record) (w : world)
    : world * result unit :=
  let instrument_name := ticker_name processed_record in
  let UNIX_time := rate_time processed_record in
  match format_record_time (utcoffset w) UNIX_time with
  | Raise e => (w, Raise e)
  | Ok record_time =>
    let instrument_data := row_of processed_record record_time in
    match key_path_of instrument_name record_time with
    | Raise e => (w, Raise e)
    | Ok key_path =>
      let w1 := log_op (GetKey key_path) w in
      match bucket w1 !! key_path with
      | Some todays_data_as_string =>
          let w2 := log_op (GetContents key_path) w1 in
          (set_contents key_path (todays_data_as_string ++ instrument_data)%string w2, Ok tt)
      | None =>
          let w2 := log_op (NewKey key_path) w1 in
          (set_contents key_path instrument_data w2, Ok tt)
      end
    end
  end.

(** [send_records] (lines 122-124). *)
Fixpoint send_records (processed_records : list processed_record) (w : world)
    : world * result unit :=
  match processed_records with
  | [] => (w, Ok tt)
  | r :: rs =>
      match send_record r w with
      | (w', Ok _) => send_records rs w'
      | (w', Raise e) => (w', Raise e)
      end
  end.

(** The key [send_record] writes [processed_record] under (lines 83-96),
    on a host whose zone is [utcoff]. *)
Definition record_key (utcoff : Z -> Z) (processed_record : processed_record)
    : result string :=
  let? record_time := format_record_time utcoff (rate_time processed_record) in
  key_path_of (ticker_name processed_record) record_time.

End ProcessRecord.
End Processed.

Arguments Processed.process_record {F} fone fdiv d.
Arguments Processed.instrument {F} _.
Arguments Processed.time {F} _.
Arguments Processed.bid {F} _.
Arguments Processed.ask {F} _.
Arguments Processed.ticker_name {F} _.
Arguments Processed.rate_time {F} _.
Arguments Processed.pbid {F} _.
Arguments Processed.pask {F} _.
Arguments Processed.send_record {F} float_str processed_record w.
Arguments Processed.send_records {F} float_str processed_records w.
Arguments Processed.row_of {F} float_str pr record_time.
Arguments Processed.record_key {F} utcoff processed_record.

(** ** KinesisConsumer (kinesis.py 31-130) *)
Module Consumer.

Record kinesis_consumer := {
  sleep_period : Z;
  shard_id : string;
  stream_name : string;
  record_limit : Z;
  begin_read : option string;
  shard_iterator : string
}.

(** [__init__] (lines 34-48); [get_shard_iterator stream shard type] is
    the client call [client.get_shard_iterator(...)["ShardIterator"]]. *)
Definition init (get_shard_iterator : string -> string -> string -> string)
    (sleep_period : Z) (shard_id stream_name : string) (record_limit : Z)
    (begin_read : option string) : kinesis_consumer :=
  {| sleep_period := sleep_period; shard_id := shard_id;
     stream_name := stream_name; record_limit := record_limit;
     begin_read := begin_read;
     shard_iterator := get_shard_iterator stream_name shard_id "LATEST" |}.

Definition with_iterator (c : kinesis_consumer) (it : string) : kinesis_consumer :=
  {| sleep_period := sleep_period c; shard_id := shard_id c;
     stream_name := stream_name c; record_limit := record_limit c;
     begin_read := begin_read c; shard_iterator := it |}.

(** Where an exception is raised: in the body of the [pull] generator,
    under its [try], or in [run] while the generator is suspended at a
    [yield], outside that [try]. *)
Inductive fault :=
| InGenerator (e : exn)
| InRun (e : exn).

Definition fault_exn (f : fault) : exn :=
  match f with InGenerator e | InRun e => e end.

Inductive outcome (A : Type) :=
| Done (a : A)
| Fault (f : fault).
Arguments Done {A} a.
Arguments Fault {A} f.

(** The names bound at the top level of kinesis.py, where the clause
    [except ProvisionedThroughputExceededException] looks its class up
    (no builtin has that name). *)
Definition kinesis_module_names : list string :=
  ["time"; "ABCMeta"; "abstractmethod"; "KinesisProducer"; "KinesisConsumer"].

(** What [client.get_records(shard_iterator, record_limit)] answers:
    [output['Records']] and [output['NextShardIterator']], or an error. *)
Definition get_records_output := result (list kinesis_record * string).

Section Engine.
Context {Out : Type}.
Variable check_record_validity : kinesis_record -> result bool.
Variable process_record : kinesis_record -> result Out.
Variable send_records : list Out -> world -> world * result unit.
Variable module_names : list string.

Inductive event :=
| EvGetRecords (it : string) (limit : Z)
| EvSetIterator (it : string)
| EvCheck (r : kinesis_record)
| EvProcess (r : kinesis_record)
| EvSend (batch : list Out)
| EvSleep (secs : Z).

Record state := {
  consumer : kinesis_consumer;
  wld : world;
  trace : list event
}.

Definition M (A : Type) : Type := state -> state * outcome A.

Definition ret {A} (a : A) : M A := fun s => (s, Done a).
Definition bind {A B} (m : M A) (k : A -> M B) : M B := fun s =>
  match m s with
  | (s', Done a) => k a s'
  | (s', Fault f) => (s', Fault f)
  end.

Local Notation "x <- m ;; k" := (bind m (fun x => k))
  (at level 100, m at next level, right associativity).
Local Notation "m ;; k" := (bind m (fun _ => k))
  (at level 100, right associativity).

Definition emit (e : event) : M unit := fun s =>
  ({| consumer := consumer s; wld := wld s; trace := trace s ++ [e] |}, Done tt).

Definition gets {A} (f : kinesis_consumer -> A) : M A := fun s =>
  (s, Done (f (consumer s))).

(** [self.shard_iterator = it]. *)
Definition set_iterator (it : string) : M unit := fun s =>
  ({| consumer := with_iterator (consumer s) it; wld := wld s;
      trace := trace s ++ [EvSetIterator it] |}, Done tt).

(** [time.sleep(n)]. *)
Definition sleep (n : Z) : M unit := fun s =>
  ({| consumer := consumer s; wld := advance n (wld s);
      trace := trace s ++ [EvSleep n] |}, Done tt).

(** A call made in the generator's body, under its [try]. *)
Definition in_generator {A} (r : result A) : M A := fun s =>
  match r with
  | Ok a => (s, Done a)
  | Raise e => (s, Fault (InGenerator e))
  end.

(** [self.send_records(processed_records)], called by [run]. *)
Definition run_send (batch : list Out) : M unit := fun s =>
  let '(w', r) := send_records batch (wld s) in
  ({| consumer := consumer s; wld := w'; trace := trace s ++ [EvSend batch] |},
   match r with Ok _ => Done tt | Raise e => Fault (InRun e) end).

(** The [for record in output['Records']] loop of [pull] (lines 65-69),
    interleaved with the body of [run]'s loop (lines 127-130) at each
    [yield]: [processed_records] is [run]'s list. *)
Fixpoint pull_records (records : list kinesis_record)
    (processed_records : list Out) : M (list Out) :=
  match records with
  | [] => ret processed_records
  | record :: rest =>
      emit (EvCheck record) ;;
      valid <- in_generator (check_record_validity record) ;;
      if valid then
        emit (EvProcess record) ;;
        processed_record <- in_generator (process_record record) ;;
        let processed_records' := processed_records ++ [processed_record] in
        run_send processed_records' ;;
        pull_records rest processed_records'
      else pull_records rest processed_records
  end.

(** The body of the [try] in [pull] (lines 58-72). *)
Definition pull_body (output : get_records_output) : M unit :=
  it <- gets shard_iterator ;;
  limit <- gets record_limit ;;
  emit (EvGetRecords it limit) ;;
  o <- in_generator output ;;
  set_iterator (snd o) ;;
  pull_records (fst o) [] ;;
  period <- gets sleep_period ;;
  sleep period.

(** [except ProvisionedThroughputExceededException: time.sleep(30)]
    (lines 74-76). Evaluating the clause looks the class name up first;
    an unbound name raises [NameError] in place of the exception. *)
Definition except_throttled (body : M unit) : M unit := fun s =>
  match body s with
  | (s', Fault (InGenerator e)) =>
      if existsb (String.eqb "ProvisionedThroughputExceededException") module_names
      then
        if exn_eqb e ProvisionedThroughputExceededException then sleep 30 s'
        else (s', Fault (InGenerator e))
      else (s', Fault (InGenerator NameError))
  | r => r
  end.

(** One iteration of [run]'s [while True] loop: a fresh
    [processed_records] and one complete run of the [pull] generator. *)
Definition run_iteration (output : get_records_output) : M unit :=
  except_throttled (pull_body output).


End Engine.

Arguments event Out : clear implicits.
Arguments state Out : clear implicits.

(** The two consumers as configured by their [main] functions. *)
Definition raw_run_iteration :=
  run_iteration Raw.check_record_validity Raw.process_record Raw.send_records
    kinesis_module_names.

Definition main_sleep_period : Z := 60.
Definition main_record_limit : Z := 11.
Definition main_begin_read : option string := Some "filler".

End Consumer.

(** ** KinesisProducer.run and ForexProducer.pull (kinesis.py 10-28,
    producer.py) *)
Module Producer.

Record forex_producer := {
  stream_name : string;
  partition_key : string;
  currencies : list string
}.

Inductive event :=
| Fetch (currency_pair : string)
| PutRecord (stream : string) (record : string) (key : string)
| Sleep (secs : Z).

Section Cycle.
(** [self.get_exchange_rate(pair)]: the text of the HTTP response, or the
    exception [requests.get] raised. *)
Variable get_exchange_rate : string -> result string.
(** [self.client.put_record(stream, record, key)]. *)
Variable put_record : string -> string -> string -> result unit.

Fixpoint first_failure (rs : list (result string)) : result (list string) :=
  match rs with
  | [] => Ok []
  | Ok x :: t => let? xs := first_failure t in Ok (x :: xs)
  | Raise e :: _ => Raise e
  end.

(** [self.multi_pool.map(self.get_exchange_rate, self.currencies)]: every
    pair is requested, then [map] re-raises a task's exception (the pool
    reports whichever failing task completes first; taken here in pair
    order). *)
Definition pool_map (pairs : list string) : list event * result (list string) :=
  (List.map Fetch pairs, first_failure (List.map get_exchange_rate pairs)).

(** The [for exchange_rate in exchange_data] loop of [pull] (lines 67-68),
    each [yield] resumed by [run]'s [put_record] (kinesis.py 27-28). *)
Fixpoint publish (p : forex_producer) (exchange_data : list string)
    : list event * result unit :=
  match exchange_data with
  | [] => ([], Ok tt)
  | exchange_rate :: rest =>
      match Json.loads exchange_rate with
      | Raise e => ([], Raise e)
      | Ok v =>
          let record := Json.dumps v in
          let ev := PutRecord (stream_name p) record (partition_key p) in
          match put_record (stream_name p) record (partition_key p) with
          | Raise e => ([ev], Raise e)
          | Ok _ => let '(evs, r) := publish p rest in (ev :: evs, r)
          end
      end
  end.

(** One iteration of [run]'s [while True]: one complete run of [pull]
    (lines 62-68), ending with [time.sleep(60)]. *)
Definition run_cycle (p : forex_producer) : list event * result unit :=
  let '(fetches, exchange_data) := pool_map (currencies p) in
  match exchange_data with
  | Raise e => (fetches, Raise e)
  | Ok data =>
      let '(puts, r) := publish p data in
      match r with
      | Raise e => (fetches ++ puts, Raise e)
      | Ok _ => (fetches ++ puts ++ [Sleep 60], Ok tt)
      end
  end.

End Cycle.

(** [main]'s configuration. *)
Definition main_producer : forex_producer :=
  {| stream_name := "forex_stream"; partition_key := "filler";
     currencies := ["EUR_USD"; "USD_CAD"; "USD_MXN"; "GBP_USD"; "AUD_USD";
                    "USD_JPY"; "USD_CNH"; "USD_INR"; "USD_SAR"; "USD_ZAR";
                    "XAU_USD"] |}.

End Producer.

(** The batches handed to [send_records] in a trace. *)
Definition sent_batches {Out : Type} (evs : list (Consumer.event Out)) : list (list Out) :=
  List.flat_map (fun e => match e with Consumer.EvSend b => [b] | _ => [] end) evs.

(** ** Concrete inputs *)
Module Sample.

Definition q (s : string) : string :=
  String Json.dquote (s ++ String Json.dquote EmptyString)%string.

(** An Oanda v1 [/prices] answer. *)
Definition quote_payload : string :=
  ("{" ++ q "prices" ++ ": [{" ++ q "instrument" ++ ": " ++ q "USD_EUR" ++ ", "
      ++ q "time" ++ ": " ++ q "1577836800000000" ++ ", "
      ++ q "bid" ++ ": 0.9, " ++ q "ask" ++ ": 0.91}]}")%string.

Definition record1 : kinesis_record :=
  {| Data := quote_payload; PartitionKey := "filler"; SequenceNumber := "1" |}.
Definition record2 : kinesis_record :=
  {| Data := quote_payload; PartitionKey := "filler"; SequenceNumber := "2" |}.
(** A payload that is not JSON. *)
Definition unparseable_record : kinesis_record :=
  {| Data := "not json"; PartitionKey := "filler"; SequenceNumber := "3" |}.
(** A payload whose [prices] list is empty. *)
Definition empty_prices_record : kinesis_record :=
  {| Data := ("{" ++ q "prices" ++ ": []}")%string; PartitionKey := "filler";
     SequenceNumber := "4" |}.

(** A consumer built as [main] builds it, against a client whose shard
    iterators name the position they were opened at. *)
Definition consumer0 : Consumer.kinesis_consumer :=
  Consumer.init (fun _ _ position => ("iterator-" ++ position)%string)
    Consumer.main_sleep_period "shardId-000000000000" "forex_stream"
    Consumer.main_record_limit Consumer.main_begin_read.

(** An empty bucket at 2020-01-01 00:00:00 UTC, on a host running in UTC. *)
Definition world0 : world :=
  {| bucket := ∅; now := 1577836800; utcoffset := fun _ => 0; ops := [] |}.

Definition state0 : Consumer.state string :=
  {| Consumer.consumer := consumer0; Consumer.wld := world0; Consumer.trace := [] |}.

(** Two EUR quotes of 2020-01-01, at 00:00:00 and at 23:59:59 UTC, as
    [process_record] returns them (times in microseconds). *)
Definition eur_open : Processed.processed_record Q :=
  {| Processed.ticker_name := "EUR"; Processed.rate_time := 1577836800000000;
     Processed.pbid := (9 # 10)%Q; Processed.pask := (91 # 100)%Q |}.
Definition eur_close : Processed.processed_record Q :=
  {| Processed.ticker_name := "EUR"; Processed.rate_time := 1577923199000000;
     Processed.pbid := (9 # 10)%Q; Processed.pask := (91 # 100)%Q |}.

(** [str(float)] on the two prices above. *)
Definition float_text (x : Q) : string := if Qeq_bool x (9 # 10) then "0.9" else "0.91".

(** The same bucket after the first EUR row of the day was written. *)
Definition world_eur : world :=
  {| bucket := <["EUR/2020/01/01/TODAYS-DATA.csv" := "EUR,2020-01-01 00:00,0.9,0.91"]> ∅;
     now := 1577923199; utcoffset := fun _ => 0; ops := [] |}.

(** Oanda answering every pair but EUR_USD, whose request fails. *)
Definition rates_without_eur_usd (pair : string) : result string :=
  if String.eqb pair "EUR_USD" then Raise RequestException else Ok "{}".
Definition put_record_ok (stream record key : string) : result unit := Ok tt.

(** A record whose payload is an Oanda error answer, without [prices]. *)
Definition no_prices_record : kinesis_record :=
  {| Data := ("{" ++ q "code" ++ ": 43}")%string; PartitionKey := "filler";
     SequenceNumber := "5" |}.


(** The worlds [world0] can turn into by writes: same clock and zone. *)
Definition same_clock (w : world) : Prop :=
  now w = now world0 /\ utcoffset w = utcoffset world0.

(** A EUR quote of 1899-12-31 23:59:59 UTC. *)
Definition eur_1899 : Processed.processed_record Q :=
  {| Processed.ticker_name := "EUR"; Processed.rate_time := -2208988801000000;
     Processed.pbid := (9 # 10)%Q; Processed.pask := (91 # 100)%Q |}.

(** Oanda answering every pair with an empty JSON object. *)
Definition rates_all_ok (pair : string) : result string := Ok "{}"%string.
(** The same, but the USD_CAD answer is an HTML error page. *)
Definition rates_usd_cad_garbled (pair : string) : result string :=
  if String.eqb pair "USD_CAD" then Ok "<html>"%string else Ok "{}"%string.

End Sample.

(** ** Functions used to state properties of the code *)

(** The lists [run] hands to [send_records] when the records [l] are
    yielded one by one after the ones in [acc]. *)
Fixpoint growing_batches {A : Type} (acc : list A) (l : list A) : list (list A) :=
  match l with
  | [] => []
  | x :: t => (acc ++ [x]) :: growing_batches (acc ++ [x]) t
  end.

(** The world after [send_records] of each batch in turn. *)
Definition send_all {A : Type} (send : list A -> world -> world * result unit)
    (batches : list (list A)) (w : world) : world :=
  fold_left (fun w b => fst (send b w)) batches w.

(** The events of the record loop of [pull]. *)
Definition record_event {Out : Type} (e : Consumer.event Out) : bool :=
  match e with
  | Consumer.EvCheck _ | Consumer.EvProcess _ | Consumer.EvSend _ => true
  | _ => false
  end.





(** The key and the CSV row [send_record] computes for a processed record
    (lines 83-99). *)
Definition keyed_row {F : Type} (float_str : F -> string) (utcoff : Z -> Z)
    (pr : Processed.processed_record F) : result (string * string) :=
  let? record_time := Processed.format_record_time utcoff (Processed.rate_time pr) in
  let? key_path := Processed.key_path_of (Processed.ticker_name pr) record_time in
  Ok (key_path, Processed.row_of float_str pr record_time).

(** A bucket after appending [row] to the object at [k], creating it if
    missing. *)
Definition append_row (b : gmap string string) (k row : string) : gmap string string :=
  <[k := match b !! k with Some old => (old ++ row)%string | None => row end]> b.

(** The rows of [rows] keyed [k], in order. *)
Definition rows_under (k : string) (rows : list (string * string)) : list string :=
  map snd (List.filter (fun kr => String.eqb (fst kr) k) rows).

(** The characters [json.dumps] escapes in a form that [json.loads]
    decodes back to the character itself: printable ASCII and the five
    control characters with a one-letter escape. *)
Definition json_safe (c : ascii) : bool :=
  let n := nat_of_ascii c in
  ((32 <=? n)%nat && (n <=? 127)%nat) || (n =? 8)%nat || (n =? 9)%nat
  || (n =? 10)%nat || (n =? 12)%nat || (n =? 13)%nat.

Definition safe_str (s : string) : Prop :=
  Forall (fun c => json_safe c = true) (list_ascii_of_string s).

(** The escaped body of a JSON string literal. *)
Definition esc (s : string) : list ascii :=
  List.concat (List.map Json.escape_char (list_ascii_of_string s)).

(** A JSON object of three string members, as [Raw.process_record]
    builds it. *)
Definition obj3 (k1 v1 k2 v2 k3 v3 : string) : Json.json :=
  Json.JObject [(k1, Json.JString v1); (k2, Json.JString v2); (k3, Json.JString v3)].

Definition nl : ascii := ascii_of_nat 10.

Definition no_newline (s : string) : Prop :=
  Forall (fun c => c <> nl) (list_ascii_of_string s).

(** The [put_record] event of [run] for the re-encoded answer [v]. *)
Definition put_event (p : Producer.forex_producer) (v : Json.json) : Producer.event :=
  Producer.PutRecord (Producer.stream_name p) (Json.dumps v) (Producer.partition_key p).

(* ================================================================== *)
(** * Theorems *)

(** Slicing a [XXX_YYY] pair. *)
Lemma py_slices_of_pair (base sym : string) :
  String.length base = 3%nat -> String.length sym = 3%nat ->
  py_slice_to (base ++ "_" ++ sym) 3 = base /\
  py_slice_from (base ++ "_" ++ sym) 4 = sym.
Proof.
  intros Hb Hs.
  destruct base as [|b1 [|b2 [|b3 [|b4 base]]]]; try discriminate.
  destruct sym as [|s1 [|s2 [|s3 [|s4 sym]]]]; try discriminate.
  split; reflexivity.
Qed.

(** C1: for a decoded quote whose instrument pair is [BASE_SYM] (two
    three-letter codes around the separator), [process_record] returns the
    symbol after the separator and the bid and ask [1 / bid], [1 / ask]
    when [BASE] is ["USD"]; otherwise it returns [BASE] as symbol and the
    bid and ask unchanged. *)
Theorem process_record_normalization (F : Type) (fone : F) (fdiv : F -> F -> F)
    (base sym : string) (t : Z) (b a : F)
    (Hbase : String.length base = 3%nat) (Hsym : String.length sym = 3%nat) :
  let r := Processed.process_record fone fdiv
             {| Processed.instrument := base ++ "_" ++ sym;
                Processed.time := t; Processed.bid := b; Processed.ask := a |} in
  (base = "USD" ->
     Processed.ticker_name r = sym /\ Processed.pbid r = fdiv fone b /\
     Processed.pask r = fdiv fone a) /\
  (base <> "USD" ->
     Processed.ticker_name r = base /\ Processed.pbid r = b /\
     Processed.pask r = a).
Proof.
  destruct (py_slices_of_pair base sym Hbase Hsym) as [Hto Hfrom].
  cbv zeta. unfold Processed.process_record; cbn [Processed.instrument].
  rewrite Hto, Hfrom.
  split; intros Hu.
  - subst base. cbn. auto.
  - apply String.eqb_neq in Hu. rewrite Hu. cbn. auto.
Qed.

Lemma process_record_normalization_witness :
  String.length "USD" = 3%nat /\ String.length "EUR" = 3%nat /\
  let r := Processed.process_record 1%Q Qdiv
             {| Processed.instrument := "USD" ++ "_" ++ "EUR";
                Processed.time := 1577836800000000; Processed.bid := (9 # 10)%Q;
                Processed.ask := (91 # 100)%Q |} in
  ("USD" = "USD" ->
     Processed.ticker_name r = "EUR" /\ Processed.pbid r = Qdiv 1 (9 # 10) /\
     Processed.pask r = Qdiv 1 (91 # 100)) /\
  ("USD" <> "USD" ->
     Processed.ticker_name r = "USD" /\ Processed.pbid r = (9 # 10)%Q /\
     Processed.pask r = (91 # 100)%Q).
Proof.
  split; [reflexivity | split; [reflexivity |]].
  exact (process_record_normalization Q 1%Q Qdiv "USD" "EUR" 1577836800000000
           (9 # 10)%Q (91 # 100)%Q eq_refl eq_refl).
Defined.

(** Unfolds the consumer monad. *)
Ltac unfold_consumer :=
  unfold Consumer.run_iteration, Consumer.except_throttled, Consumer.pull_body,
    Consumer.bind, Consumer.ret, Consumer.gets, Consumer.emit,
    Consumer.in_generator, Consumer.set_iterator, Consumer.sleep,
    Consumer.run_send in *; cbn in *.

(** C6: the constructor asks the client for a shard iterator of type
    ["LATEST"] whatever [begin_read] is; [begin_read] is only stored. *)
Theorem init_cursor_at_latest
    (get_shard_iterator : string -> string -> string -> string)
    (sleep_period : Z) (shard_id stream_name : string) (record_limit : Z)
    (begin_read : option string) :
  let c := Consumer.init get_shard_iterator sleep_period shard_id stream_name
             record_limit begin_read in
  Consumer.shard_iterator c = get_shard_iterator stream_name shard_id "LATEST" /\
  Consumer.begin_read c = begin_read.
Proof. split; reflexivity. Qed.

(** C6, refuted: with a client whose iterator names the position it was
    opened at, a consumer given the resume position ["TRIM_HORIZON"] does
    not start there. *)
Lemma init_ignores_resume_position :
  let gsi := fun (_ _ position : string) => position in
  Consumer.shard_iterator
    (Consumer.init gsi 60 "shardId-000000000000" "forex_stream" 11
       (Some "TRIM_HORIZON"))
  <> gsi "forex_stream" "shardId-000000000000" "TRIM_HORIZON".
Proof. cbn. discriminate. Qed.

(** C4: a [get_records] call that raises the throttling exception leaves
    [shard_iterator] unchanged. The only sleep that path can take is the
    handler's fixed 30 seconds, shorter than the 60-second poll interval of
    [main]; it is taken only when the clause's class name resolves in the
    module, and otherwise the attempt ends in [NameError]. *)
Theorem throttled_pull_keeps_cursor {Out : Type}
    (chk : kinesis_record -> result bool) (proc : kinesis_record -> result Out)
    (send : list Out -> world -> world * result unit) (names : list string)
    (s : Consumer.state Out) :
  let r := Consumer.run_iteration chk proc send names
             (Raise ProvisionedThroughputExceededException) s in
  let c := Consumer.consumer s in
  let pull := Consumer.EvGetRecords (Out:=Out) (Consumer.shard_iterator c)
                (Consumer.record_limit c) in
  Consumer.shard_iterator (Consumer.consumer (fst r)) = Consumer.shard_iterator c /\
  (if existsb (String.eqb "ProvisionedThroughputExceededException") names
   then Consumer.trace (fst r) = Consumer.trace s ++ [pull; Consumer.EvSleep 30] /\
        snd r = Consumer.Done tt
   else Consumer.trace (fst r) = Consumer.trace s ++ [pull] /\
        snd r = Consumer.Fault (Consumer.InGenerator NameError)) /\
  30 < Consumer.main_sleep_period.
Proof.
  unfold_consumer.
  destruct (existsb _ names); cbn;
    repeat split; try reflexivity.
  rewrite <- app_assoc. reflexivity.
Qed.

(** C4, refuted: in the configuration of [main] (poll interval 60 s), a
    throttled attempt is not followed by any sleep longer than 60 s. *)
Lemma throttled_pull_no_long_backoff :
  let s0 := {| Consumer.consumer :=
                 Consumer.init (fun _ _ p => p) Consumer.main_sleep_period
                   "shardId-000000000000" "forex_stream" Consumer.main_record_limit
                   Consumer.main_begin_read;
               Consumer.wld := {| bucket := ∅; now := 0; utcoffset := fun _ => 0;
                                  ops := [] |};
               Consumer.trace := [] |} in
  let r := Consumer.raw_run_iteration (Raise ProvisionedThroughputExceededException) s0 in
  ~ exists n, In (Consumer.EvSleep n) (Consumer.trace (fst r)) /\
              n > Consumer.main_sleep_period.
Proof.
  cbn. intros [n [[H | []] _]]. discriminate.
Qed.

(** Closes a [pull_records] step that stops with a fault. *)
Ltac frame_stop :=
  match goal with
  | H : (_, _) = (_, _) |- _ =>
      injection H as <- _; cbn; split; [reflexivity|];
      eexists; split; [rewrite <- ?app_assoc; reflexivity
                      | intros ? Hin; cbn in Hin; intuition discriminate]
  end.

(** [pull_records] keeps the consumer (so its iterator) and only appends
    events, none of which sets the iterator. *)
Lemma pull_records_frame {Out : Type}
    (chk : kinesis_record -> result bool) (proc : kinesis_record -> result Out)
    (send : list Out -> world -> world * result unit)
    (records : list kinesis_record) :
  forall (acc : list Out) (s s' : Consumer.state Out) o,
  Consumer.pull_records chk proc send records acc s = (s', o) ->
  Consumer.consumer s' = Consumer.consumer s /\
  exists evs, Consumer.trace s' = Consumer.trace s ++ evs /\
    forall it, ~ In (Consumer.EvSetIterator it) evs.
Proof.
  induction records as [|r rest IH]; intros acc s s' o H.
  - cbn in H. injection H as <- _. split; [reflexivity|].
    exists []. rewrite app_nil_r. split; [reflexivity | intros it []].
  - cbn [Consumer.pull_records] in H. unfold_consumer.
    destruct (chk r) as [[|]|e]; cbn in H.
    + destruct (proc r) as [p|e]; cbn in H.
      * destruct (send (acc ++ [p]) (Consumer.wld s)) as [w' [u|e]]; cbn in H.
        -- apply IH in H as [Hc [evs [Ht Hn]]]. cbn in Hc, Ht.
           split; [exact Hc|].
           exists ([Consumer.EvCheck r; Consumer.EvProcess r;
                    Consumer.EvSend (acc ++ [p])] ++ evs).
           split; [rewrite Ht, <- !app_assoc; reflexivity|].
           intros it Hin. apply in_app_or in Hin as [Hin|Hin]; [|exact (Hn it Hin)].
           cbn in Hin. intuition discriminate.
        -- frame_stop.
      * frame_stop.
    + apply IH in H as [Hc [evs [Ht Hn]]]. cbn in Hc, Ht.
      split; [exact Hc|].
      exists (Consumer.EvCheck r :: evs).
      split; [rewrite Ht, <- !app_assoc; reflexivity|].
      intros it [Hin|Hin]; [discriminate | exact (Hn it Hin)].
    + frame_stop.
Qed.

(** C3, as the code does it: in every pull whose [get_records] call
    succeeds, [shard_iterator] is set to [NextShardIterator] right after
    that call, before any record of the pull is checked, processed or
    sent, and it stays so whatever the rest of the pull does (raise
    included). *)
Theorem pull_advances_cursor_first {Out : Type}
    (chk : kinesis_record -> result bool) (proc : kinesis_record -> result Out)
    (send : list Out -> world -> world * result unit) (names : list string)
    (records : list kinesis_record) (next : string) (s : Consumer.state Out) :
  let r := Consumer.run_iteration chk proc send names (Ok (records, next)) s in
  let c := Consumer.consumer s in
  Consumer.shard_iterator (Consumer.consumer (fst r)) = next /\
  exists rest,
    Consumer.trace (fst r) =
      Consumer.trace s ++ Consumer.EvGetRecords (Consumer.shard_iterator c)
                            (Consumer.record_limit c)
                         :: Consumer.EvSetIterator next :: rest /\
    forall it, ~ In (Consumer.EvSetIterator it) rest.
Proof.
  cbv zeta. unfold_consumer.
  match goal with |- context [Consumer.pull_records ?a ?b ?c ?d ?e ?f] =>
    destruct (Consumer.pull_records a b c d e f) as [s1 o1] eqn:E end.
  apply pull_records_frame in E as [Hc [evs [Ht Hn]]]. cbn in Hc, Ht.
  assert (Hit : Consumer.shard_iterator (Consumer.consumer s1) = next)
    by (rewrite Hc; reflexivity).
  destruct o1 as [u|[e|e]]; cbn;
    [| destruct (existsb _ names); [destruct (exn_eqb _ _)|] |]; cbn;
    (split; [exact Hit|]); eexists;
    (split; [rewrite Ht, <- !app_assoc; cbn; reflexivity|]);
    intros it Hin;
    first [ exact (Hn it Hin)
          | apply in_app_or in Hin as [Hin|Hin];
            [exact (Hn it Hin) | cbn in Hin; intuition discriminate] ].
Qed.

(** C3, refuted: the archival consumer pulls an unparseable record then a
    valid one; the pull stops at the first, yet the cursor has already
    moved to [NextShardIterator] and the valid record was never processed. *)
Lemma cursor_advanced_before_records_processed :
  let r := Consumer.raw_run_iteration
             (Ok ([Sample.unparseable_record; Sample.record1], "iterator-next"))
             Sample.state0 in
  Consumer.shard_iterator (Consumer.consumer (fst r)) = "iterator-next" /\
  ~ In (Consumer.EvProcess Sample.record1) (Consumer.trace (fst r)).
Proof.
  vm_compute. split; [reflexivity|]. intuition discriminate.
Qed.

(** C2, evaluated: one pull returning two valid records makes [run] call
    [send_records] twice, with the growing list [[p1]] then [[p1; p2]]. *)
Lemma run_sends_once_per_record :
  exists p1 p2,
    Raw.process_record Sample.record1 = Ok p1 /\
    Raw.process_record Sample.record2 = Ok p2 /\
    let r := Consumer.raw_run_iteration
               (Ok ([Sample.record1; Sample.record2], "iterator-next"))
               Sample.state0 in
    sent_batches (Consumer.trace (fst r)) = [[p1]; [p1; p2]] /\
    snd r = Consumer.Done tt.
Proof.
  do 2 eexists. split; [reflexivity|]. split; [reflexivity|].
  vm_compute. split; reflexivity.
Qed.

(** C8, evaluated: for the same pull the archival sink creates the object
    of the cycle and then overwrites that same object with a second
    content. *)
Lemma raw_cycle_overwrites_its_object :
  let r := Consumer.raw_run_iteration
             (Ok ([Sample.record1; Sample.record2], "iterator-next"))
             Sample.state0 in
  exists k s1 s2,
    k = "2020/01/01/FOREX-RAW-DATA-1577836800" /\
    ops (Consumer.wld (fst r)) = [NewKey k; SetContents k s1; NewKey k; SetContents k s2] /\
    s1 <> s2.
Proof.
  do 3 eexists. split; [reflexivity|]. split.
  - vm_compute. reflexivity.
  - vm_compute. discriminate.
Qed.

(** C5, evaluated: [check_record_validity] raises on an unparseable payload
    and on an empty [prices] list instead of returning [False]; in a pull
    the exception ends the cycle (as [NameError] from the [except] clause,
    or as the [ValueError] itself were the clause's name bound), and the
    valid record after it is never sent. *)
Lemma invalid_payload_raises :
  forex_check_record_validity Sample.unparseable_record = Raise ValueError /\
  forex_check_record_validity Sample.empty_prices_record = Raise IndexError /\
  (let r := Consumer.raw_run_iteration
              (Ok ([Sample.unparseable_record; Sample.record1], "iterator-next"))
              Sample.state0 in
   snd r = Consumer.Fault (Consumer.InGenerator NameError) /\
   sent_batches (Consumer.trace (fst r)) = []) /\
  (let r := Consumer.run_iteration Raw.check_record_validity Raw.process_record
              Raw.send_records
              ("ProvisionedThroughputExceededException" :: Consumer.kinesis_module_names)
              (Ok ([Sample.unparseable_record; Sample.record1], "iterator-next"))
              Sample.state0 in
   snd r = Consumer.Fault (Consumer.InGenerator ValueError) /\
   sent_batches (Consumer.trace (fst r)) = []).
Proof.
  vm_compute. repeat split; reflexivity.
Qed.

(** ** Strings produced by [strftime] *)

Lemma list_ascii_of_string_app (a b : string) :
  list_ascii_of_string (a ++ b) = list_ascii_of_string a ++ list_ascii_of_string b.
Proof. induction a as [|c a IH]; [reflexivity | simpl; f_equal; exact IH]. Qed.

Definition all_digits (l : list ascii) : Prop := Forall (fun c => Json.is_digit c = true) l.

Lemma digit_char_is_digit (n : Z) : Json.is_digit (digit_char (n mod 10)) = true.
Proof.
  unfold Json.is_digit, digit_char.
  pose proof (Z.mod_pos_bound n 10 ltac:(lia)) as Hb.
  rewrite nat_ascii_embedding by lia.
  apply andb_true_intro; split; apply Nat.leb_le; lia.
Qed.

Lemma dec_aux_digits (fuel : nat) :
  forall n acc, all_digits acc -> all_digits (dec_aux fuel n acc).
Proof.
  induction fuel as [|f IH]; intros n acc Hacc; cbn.
  - constructor; [apply digit_char_is_digit | exact Hacc].
  - destruct (n <? 10).
    + constructor; [apply digit_char_is_digit | exact Hacc].
    + apply IH. constructor; [apply digit_char_is_digit | exact Hacc].
Qed.

Lemma py_str_nat_digits (n : Z) : all_digits (list_ascii_of_string (py_str_nat n)).
Proof.
  unfold py_str_nat. rewrite list_ascii_of_string_of_list_ascii.
  apply dec_aux_digits. constructor.
Qed.

Lemma pad2_digits (n : Z) : all_digits (list_ascii_of_string (pad2 n)).
Proof.
  unfold pad2. destruct (n <? 10).
  - cbn. constructor; [reflexivity | apply py_str_nat_digits].
  - apply py_str_nat_digits.
Qed.

Lemma digit_not_space (c : ascii) : Json.is_digit c = true -> py_is_space c = false.
Proof.
  unfold Json.is_digit, py_is_space. intros H.
  apply andb_true_iff in H as [H1 H2]. apply Nat.leb_le in H1, H2.
  destruct (nat_of_ascii c) as [|[|[|[|[|[|[|[|[|[|[|[|[|[|n]]]]]]]]]]]]]] eqn:E;
    try lia.
  repeat (destruct n as [|n]; try lia); reflexivity.
Qed.

Lemma digit_not_dash (c : ascii) : Json.is_digit c = true -> Ascii.eqb c "-"%char = false.
Proof.
  intros H. apply Ascii.eqb_neq. intros ->. discriminate H.
Qed.

Lemma split_ws_aux_word (l1 l2 cur : list ascii) :
  Forall (fun c => py_is_space c = false) l1 ->
  split_ws_aux (l1 ++ l2) cur = split_ws_aux l2 (rev l1 ++ cur).
Proof.
  intros H. revert cur. induction H as [|c l1 Hc _ IH]; intros cur; cbn; [reflexivity|].
  rewrite Hc, IH, <- app_assoc. reflexivity.
Qed.

Lemma split_sep_aux_word (sep : ascii) (l1 l2 cur : list ascii) :
  Forall (fun c => Ascii.eqb c sep = false) l1 ->
  split_sep_aux sep (l1 ++ l2) cur = split_sep_aux sep l2 (rev l1 ++ cur).
Proof.
  intros H. revert cur. induction H as [|c l1 Hc _ IH]; intros cur; cbn; [reflexivity|].
  rewrite Hc, IH, <- app_assoc. reflexivity.
Qed.

Lemma all_digits_not_space (l : list ascii) :
  all_digits l -> Forall (fun c => py_is_space c = false) l.
Proof. induction 1; constructor; auto using digit_not_space. Qed.

Lemma all_digits_not_dash (l : list ascii) :
  all_digits l -> Forall (fun c => Ascii.eqb c "-"%char = false) l.
Proof. induction 1; constructor; auto using digit_not_dash. Qed.

Lemma Forall_app_intro {A : Type} (P : A -> Prop) (l1 l2 : list A) :
  Forall P l1 -> Forall P l2 -> Forall P (l1 ++ l2).
Proof. induction 1; cbn; auto. Qed.

(** The key [send_record] derives from a formatted time keeps its date
    part only. *)
Lemma key_path_of_record_time (name : string) (dt : PyTime.datetime) :
  Processed.key_path_of name
    (PyTime.strftime_aux dt (list_ascii_of_string "%Y-%m-%d %H:%M")) =
  Ok (name ++ "/" ++ py_str_nat (PyTime.year dt) ++ "/" ++ pad2 (PyTime.month dt)
        ++ "/" ++ pad2 (PyTime.day dt) ++ "/TODAYS-DATA.csv")%string.
Proof.
  pose proof (py_str_nat_digits (PyTime.year dt)) as HY.
  pose proof (pad2_digits (PyTime.month dt)) as HM.
  pose proof (pad2_digits (PyTime.day dt)) as HD.
  set (Y := py_str_nat (PyTime.year dt)) in *.
  set (Mo := pad2 (PyTime.month dt)) in *.
  set (D := pad2 (PyTime.day dt)) in *.
  set (H := pad2 (PyTime.hour dt)).
  set (Mi := pad2 (PyTime.minute dt)).
  cbn [list_ascii_of_string PyTime.strftime_aux].
  fold Y Mo D H Mi.
  unfold Processed.key_path_of, py_split.
  repeat (rewrite list_ascii_of_string_app || (progress cbn [list_ascii_of_string])).
  set (date := list_ascii_of_string Y ++ "-"%char :: list_ascii_of_string Mo
                 ++ "-"%char :: list_ascii_of_string D).
  replace (list_ascii_of_string Y ++ "-"%char :: list_ascii_of_string Mo
             ++ "-"%char :: list_ascii_of_string D ++ " "%char
             :: list_ascii_of_string H ++ ":"%char :: list_ascii_of_string Mi
             ++ [])
    with (date ++ " "%char :: list_ascii_of_string H ++ ":"%char
             :: list_ascii_of_string Mi ++ [])
    by (unfold date; repeat (rewrite <- app_assoc || (progress simpl)); reflexivity).
  rewrite (split_ws_aux_word date).
  2:{ unfold date. apply Forall_app_intro; [now apply all_digits_not_space|].
      constructor; [reflexivity|]. apply Forall_app_intro;
        [now apply all_digits_not_space|].
      constructor; [reflexivity|]. now apply all_digits_not_space. }
  rewrite app_nil_r.
  assert (Hne : rev date <> []).
  { unfold date. intros E. apply (f_equal (@List.length ascii)) in E.
    rewrite length_rev, !length_app in E. cbn in E. lia. }
  cbn [split_ws_aux].
  replace (py_is_space " "%char) with true by reflexivity.
  rewrite app_nil_r.
  destruct (rev date) as [|c0 rd] eqn:Erd; [contradiction|].
  cbn [py_index0 result_bind].
  rewrite <- Erd, rev_involutive.
  unfold py_split_sep. rewrite list_ascii_of_string_of_list_ascii.
  unfold date.
  rewrite split_sep_aux_word by now apply all_digits_not_dash.
  cbn [split_sep_aux Ascii.eqb]. rewrite app_nil_r.
  rewrite split_sep_aux_word by now apply all_digits_not_dash.
  cbn [split_sep_aux Ascii.eqb]. rewrite app_nil_r.
  rewrite <- (app_nil_r (list_ascii_of_string D)).
  rewrite split_sep_aux_word by now apply all_digits_not_dash.
  cbn [split_sep_aux]. rewrite !app_nil_r, !rev_involutive,
    !string_of_list_ascii_of_string.
  reflexivity.
Qed.

(** The key of a processed record is built from its symbol and the local
    calendar date of its timestamp, and from nothing else. *)
Lemma record_key_by_date {F} (utcoff : Z -> Z) (pr : Processed.processed_record F) :
  Processed.record_key utcoff pr =
  let '(y, m, d) := PyTime.local_date utcoff (Processed.rate_time pr / 1000000) in
  if (1 <=? y) && (y <=? 9999) && negb (y <? 1900) then
    Ok (Processed.ticker_name pr ++ "/" ++ py_str_nat y ++ "/" ++ pad2 m ++ "/"
          ++ pad2 d ++ "/TODAYS-DATA.csv")%string
  else Raise ValueError.
Proof.
  unfold Processed.record_key, Processed.format_record_time, PyTime.fromtimestamp,
    PyTime.local_date.
  destruct (PyTime.civil_from_days _) as [[y m] d].
  destruct ((1 <=? y) && (y <=? 9999)); cbn [andb negb result_bind]; [|reflexivity].
  unfold PyTime.strftime. cbn [PyTime.year].
  destruct (y <? 1900); cbn [negb result_bind]; [reflexivity|].
  apply key_path_of_record_time.
Qed.

(** Every bucket operation of [send_record] is on the record's key; when the
    key cannot be computed the world is untouched. *)
Lemma send_record_ops {F} (float_str : F -> string) (pr : Processed.processed_record F)
    (w : world) :
  match Processed.record_key (utcoffset w) pr with
  | Ok k => exists l, ops (fst (Processed.send_record float_str pr w)) = ops w ++ l /\
              l <> [] /\ Forall (fun o => op_key o = k) l
  | Raise e => Processed.send_record float_str pr w = (w, Raise e)
  end.
Proof.
  unfold Processed.record_key, Processed.send_record.
  destruct (Processed.format_record_time _ _) as [rt|e]; cbn [result_bind]; [|reflexivity].
  destruct (Processed.key_path_of _ _) as [k|e]; [|reflexivity].
  cbn [log_op bucket].
  destruct (bucket w !! k); cbn [fst ops set_contents log_op];
    eexists; (split; [rewrite <- !app_assoc; reflexivity|]);
    split; try discriminate; repeat constructor.
Qed.

(** Calendar fields of a local second count [l], read off its minute count. *)
Lemma sod_div_60 (l : Z) : (l mod 86400) / 60 = (l / 60) mod 1440.
Proof.
  pose proof (Z.div_mod l 60 ltac:(lia)) as E1.
  pose proof (Z.mod_pos_bound l 60 ltac:(lia)) as B1.
  pose proof (Z.div_mod (l / 60) 1440 ltac:(lia)) as E2.
  pose proof (Z.mod_pos_bound (l / 60) 1440 ltac:(lia)) as B2.
  rewrite <- (Z.mod_unique l 86400 (l / 60 / 1440) (60 * ((l / 60) mod 1440) + l mod 60))
    by lia.
  symmetry. apply Z.div_unique with (r := l mod 60); lia.
Qed.

Lemma div_86400_via_minutes (l : Z) : l / 86400 = (l / 60) / 1440.
Proof. rewrite Z.div_div by lia. reflexivity. Qed.

Lemma hour_via_minutes (l : Z) : (l mod 86400) / 3600 = ((l / 60) mod 1440) / 60.
Proof. rewrite <- sod_div_60, Z.div_div by lia. reflexivity. Qed.

Lemma minute_via_minutes (l : Z) : ((l mod 86400) / 60) mod 60 = ((l / 60) mod 1440) mod 60.
Proof. rewrite sod_div_60. reflexivity. Qed.

Lemma string_app_empty_r (s : string) : (s ++ "")%string = s.
Proof. induction s as [|c s IH]; [reflexivity|]. exact (f_equal (String c) IH). Qed.

(** The formatted time is [YYYY-mm-dd HH:MM] of [fromtimestamp(T / 10^6)]. *)
Lemma format_record_time_shape (utcoff : Z -> Z) (T : Z) (rt : string) :
  Processed.format_record_time utcoff T = Ok rt ->
  exists dt, PyTime.fromtimestamp utcoff (T / 1000000) = Ok dt /\
    rt = (py_str_nat (PyTime.year dt) ++ "-" ++ pad2 (PyTime.month dt) ++ "-"
          ++ pad2 (PyTime.day dt) ++ " " ++ pad2 (PyTime.hour dt) ++ ":"
          ++ pad2 (PyTime.minute dt))%string.
Proof.
  unfold Processed.format_record_time.
  destruct (PyTime.fromtimestamp _ _) as [dt|e]; cbn [result_bind]; [|discriminate].
  unfold PyTime.strftime. destruct (_ <? 1900); [discriminate|].
  intros E. injection E as <-. exists dt. split; [reflexivity|].
  cbn [PyTime.strftime_aux list_ascii_of_string].
  rewrite string_app_empty_r. reflexivity.
Qed.

(** [format_record_time] only sees the minute of the local time. *)
Lemma format_record_time_minute (utcoff : Z -> Z) (T1 T2 : Z) :
  PyTime.local_seconds utcoff (T1 / 1000000) / 60 =
  PyTime.local_seconds utcoff (T2 / 1000000) / 60 ->
  Processed.format_record_time utcoff T1 = Processed.format_record_time utcoff T2.
Proof.
  intros Hm.
  unfold Processed.format_record_time, PyTime.fromtimestamp.
  rewrite !(div_86400_via_minutes (PyTime.local_seconds _ _)),
    !(hour_via_minutes (PyTime.local_seconds _ _)),
    !(minute_via_minutes (PyTime.local_seconds _ _)), Hm.
  destruct (PyTime.civil_from_days _) as [[y m] d].
  destruct ((1 <=? y) && (y <=? 9999)); cbn [result_bind]; [|reflexivity].
  unfold PyTime.strftime. cbn [PyTime.year]. destruct (y <? 1900); reflexivity.
Qed.

(** The row [send_record] stores under its key. *)
Lemma send_record_row {F} (float_str : F -> string) (pr : Processed.processed_record F)
    (w : world) (rt k : string) :
  Processed.format_record_time (utcoffset w) (Processed.rate_time pr) = Ok rt ->
  Processed.key_path_of (Processed.ticker_name pr) rt = Ok k ->
  bucket (fst (Processed.send_record float_str pr w)) !! k =
  Some (match bucket w !! k with
        | Some old => old ++ Processed.row_of float_str pr rt
        | None => Processed.row_of float_str pr rt
        end)%string.
Proof.
  intros Ht Hk. unfold Processed.send_record. rewrite Ht, Hk.
  cbn [log_op bucket].
  destruct (bucket w !! k); cbn [fst set_contents bucket]; apply lookup_insert_eq.
Qed.

(** [pool.map] raises as soon as one task raised. *)
Lemma first_failure_raise (rs : list (result string)) (e : exn) :
  In (Raise e) rs -> exists e', Producer.first_failure rs = Raise e'.
Proof.
  induction rs as [|r rs IH]; intros Hin; [destruct Hin|].
  destruct r as [x|e0]; cbn [Producer.first_failure].
  - destruct Hin as [Heq|Hin]; [discriminate|].
    destruct (IH Hin) as [e' ->]. exists e'. reflexivity.
  - exists e0. reflexivity.
Qed.

(** C7, as the code does it: when the rate request of any pair of the producer fails,
    the cycle requests every pair and then raises out of [pull] and [run]:
    its events are the fetches alone, with no [put_record] and no sleep. *)
Theorem producer_fetch_failure_aborts_cycle
    (get_exchange_rate : string -> result string)
    (put_record : string -> string -> string -> result unit)
    (p : Producer.forex_producer) (pair : string) (e : exn) :
  In pair (Producer.currencies p) -> get_exchange_rate pair = Raise e ->
  exists e', Producer.run_cycle get_exchange_rate put_record p =
             (List.map Producer.Fetch (Producer.currencies p), Raise e').
Proof.
  intros Hin Hget.
  destruct (first_failure_raise (List.map get_exchange_rate (Producer.currencies p)) e)
    as [e' He'].
  { rewrite <- Hget. apply in_map. exact Hin. }
  exists e'. unfold Producer.run_cycle, Producer.pool_map. rewrite He'. reflexivity.
Qed.

Lemma producer_fetch_failure_aborts_cycle_witness :
  In "EUR_USD" (Producer.currencies Producer.main_producer) /\
  Sample.rates_without_eur_usd "EUR_USD" = Raise RequestException /\
  exists e', Producer.run_cycle Sample.rates_without_eur_usd Sample.put_record_ok
               Producer.main_producer =
             (List.map Producer.Fetch (Producer.currencies Producer.main_producer), Raise e').
Proof.
  split; [left; reflexivity|]. split; [reflexivity|].
  apply (producer_fetch_failure_aborts_cycle _ _ _ "EUR_USD" RequestException);
    [left|]; reflexivity.
Defined.

(** C7, refuted: with [main]'s eleven pairs and only the EUR_USD
    request failing, the cycle raises and publishes none of the ten other
    payloads. *)
Lemma producer_one_failure_publishes_nothing :
  let r := Producer.run_cycle Sample.rates_without_eur_usd Sample.put_record_ok
             Producer.main_producer in
  snd r = Raise RequestException /\
  Forall (fun ev => match ev with Producer.PutRecord _ _ _ => False | _ => True end)
    (fst r).
Proof. vm_compute. split; [reflexivity|]. repeat constructor. Qed.

(** C9: two processed records with the same symbol and the same local date
    of their timestamps get the same key, whatever bucket state and batch
    they are sent in, and every bucket operation [send_record] makes for
    either of them is on that key. *)
Theorem processed_key_from_symbol_and_date {F} (float_str : F -> string) (off : Z -> Z)
    (pr1 pr2 : Processed.processed_record F) (w1 w2 : world) :
  utcoffset w1 = off -> utcoffset w2 = off ->
  Processed.ticker_name pr1 = Processed.ticker_name pr2 ->
  PyTime.local_date off (Processed.rate_time pr1 / 1000000) =
  PyTime.local_date off (Processed.rate_time pr2 / 1000000) ->
  Processed.record_key off pr1 = Processed.record_key off pr2 /\
  forall k, Processed.record_key off pr1 = Ok k ->
    (exists l1, ops (fst (Processed.send_record float_str pr1 w1)) = ops w1 ++ l1 /\
       l1 <> [] /\ Forall (fun o => op_key o = k) l1) /\
    (exists l2, ops (fst (Processed.send_record float_str pr2 w2)) = ops w2 ++ l2 /\
       l2 <> [] /\ Forall (fun o => op_key o = k) l2).
Proof.
  intros Hw1 Hw2 Hn Hd.
  assert (Hk : Processed.record_key off pr1 = Processed.record_key off pr2)
    by (rewrite !record_key_by_date, Hn, Hd; reflexivity).
  split; [exact Hk|]. intros k Hk1.
  pose proof (send_record_ops float_str pr1 w1) as O1.
  pose proof (send_record_ops float_str pr2 w2) as O2.
  rewrite Hw1, Hk1 in O1. rewrite Hw2, <- Hk, Hk1 in O2.
  split; assumption.
Qed.

Lemma processed_key_from_symbol_and_date_witness :
  PyTime.local_date (fun _ => 0) (Processed.rate_time Sample.eur_open / 1000000) =
  PyTime.local_date (fun _ => 0) (Processed.rate_time Sample.eur_close / 1000000) /\
  Processed.record_key (fun _ => 0) Sample.eur_open = Ok "EUR/2020/01/01/TODAYS-DATA.csv" /\
  Processed.record_key (fun _ => 0) Sample.eur_open =
  Processed.record_key (fun _ => 0) Sample.eur_close.
Proof.
  split; [reflexivity|]. split; [vm_compute; reflexivity|].
  apply (processed_key_from_symbol_and_date Sample.float_text (fun _ => 0)
           Sample.eur_open Sample.eur_close Sample.world0 Sample.world_eur);
    reflexivity.
Defined.

(** C10: the time written in a row is [fromtimestamp(T / 10^6)] formatted as
    [YYYY-mm-dd HH:MM]; two timestamps in the same local minute give the same
    string, and the row [send_record] stores under the record's key carries
    that string. *)
Theorem record_time_minute_precision {F} (float_str : F -> string) (off : Z -> Z)
    (T1 T2 : Z) :
  PyTime.local_seconds off (T1 / 1000000) / 60 =
  PyTime.local_seconds off (T2 / 1000000) / 60 ->
  Processed.format_record_time off T1 = Processed.format_record_time off T2 /\
  forall rt, Processed.format_record_time off T1 = Ok rt ->
    (exists dt, PyTime.fromtimestamp off (T1 / 1000000) = Ok dt /\
       rt = (py_str_nat (PyTime.year dt) ++ "-" ++ pad2 (PyTime.month dt) ++ "-"
             ++ pad2 (PyTime.day dt) ++ " " ++ pad2 (PyTime.hour dt) ++ ":"
             ++ pad2 (PyTime.minute dt))%string) /\
    forall (pr : Processed.processed_record F) (w : world) (k : string),
      utcoffset w = off ->
      Processed.rate_time pr = T1 \/ Processed.rate_time pr = T2 ->
      Processed.key_path_of (Processed.ticker_name pr) rt = Ok k ->
      bucket (fst (Processed.send_record float_str pr w)) !! k =
      Some (match bucket w !! k with
            | Some old => old ++ Processed.row_of float_str pr rt
            | None => Processed.row_of float_str pr rt
            end)%string.
Proof.
  intros Hm.
  pose proof (format_record_time_minute off T1 T2 Hm) as He.
  split; [exact He|]. intros rt Hrt.
  split; [exact (format_record_time_shape off T1 rt Hrt)|].
  intros pr w k Hw Hpr Hk.
  apply send_record_row; [|exact Hk].
  rewrite Hw. destruct Hpr as [-> | ->]; [exact Hrt|]. rewrite <- He. exact Hrt.
Qed.

Lemma record_time_minute_precision_witness :
  PyTime.local_seconds (fun _ => 0) (1577836800000000 / 1000000) / 60 =
  PyTime.local_seconds (fun _ => 0) (1577836859999999 / 1000000) / 60 /\
  Processed.format_record_time (fun _ => 0) 1577836800000000 = Ok "2020-01-01 00:00" /\
  Processed.format_record_time (fun _ => 0) 1577836800000000 =
  Processed.format_record_time (fun _ => 0) 1577836859999999.
Proof.
  split; [reflexivity|]. split; [vm_compute; reflexivity|].
  apply (record_time_minute_precision Sample.float_text (fun _ => 0)); reflexivity.
Defined.

(** ** The consumer's pull loop and run loop, in general *)

Section PullRecords.
Context {Out : Type}.
Variables (chk : kinesis_record -> result bool) (proc : kinesis_record -> result Out)
  (send : list Out -> world -> world * result unit).


(** A property of the world that [send_records] keeps and under which it
    does not raise. *)
Variable Inv : world -> Prop.
Hypothesis send_ok : forall b w, Inv w -> snd (send b w) = Ok tt /\ Inv (fst (send b w)).

(** When every check answers and every valid record is processed, the loop
    sends the growing prefixes of the processed valid records. *)
Lemma pull_records_valid (vb : kinesis_record -> bool) (pf : kinesis_record -> Out)
    (records : list kinesis_record) :
  (forall r, In r records -> chk r = Ok (vb r)) ->
  (forall r, In r records -> vb r = true -> proc r = Ok (pf r)) ->
  forall (acc : list Out) (s : Consumer.state Out),
  Inv (Consumer.wld s) ->
  let r := Consumer.pull_records chk proc send records acc s in
  let batches := growing_batches acc (map pf (List.filter vb records)) in
  snd r = Consumer.Done (acc ++ map pf (List.filter vb records)) /\
  Consumer.consumer (fst r) = Consumer.consumer s /\
  Consumer.wld (fst r) = send_all send batches (Consumer.wld s) /\
  Inv (Consumer.wld (fst r)) /\
  exists evs, Consumer.trace (fst r) = Consumer.trace s ++ evs /\
    forallb record_event evs = true /\
    sent_batches evs = batches /\
    (forall x, In (Consumer.EvProcess x) evs -> In x records /\ vb x = true).
Proof.
  intros Hchk Hproc.
  induction records as [|r rest IH]; intros acc s Hinv.
  - cbn. rewrite app_nil_r. repeat split; try reflexivity; [exact Hinv|].
    exists []. rewrite app_nil_r. do 3 (split; [reflexivity|]). intros ? [].
  - cbn [Consumer.pull_records].
    assert (IH' := IH (fun x Hx => Hchk x (or_intror Hx))
                      (fun x Hx => Hproc x (or_intror Hx))).
    rewrite (Hchk r (or_introl eq_refl)).
    destruct (vb r) eqn:Hv.
    + rewrite (Hproc r (or_introl eq_refl) Hv).
      destruct (send_ok (acc ++ [pf r]) (Consumer.wld s) Hinv) as [Hs Hinv'].
      unfold Consumer.bind, Consumer.emit, Consumer.in_generator, Consumer.run_send.
      cbn [fst snd Consumer.wld Consumer.trace Consumer.consumer].
      destruct (send (acc ++ [pf r]) (Consumer.wld s)) as [w1 r1] eqn:Es.
      cbn in Hs, Hinv'. subst r1.
      match goal with |- context [Consumer.pull_records _ _ _ rest _ ?s1] =>
        destruct (IH' (acc ++ [pf r]) s1 Hinv') as (H1 & H2 & H3 & H4 & evs & H5 & H6 & H7 & H8)
      end.
      destruct (Consumer.pull_records _ _ _ rest _ _) as [s2 o2]. cbn in *.
      rewrite H1, <- app_assoc. cbn [List.filter map app].
      rewrite Hv. cbn [map app growing_batches].
      repeat split; try assumption.
      * cbn [fold_left]. rewrite Es. exact H3.
      * exists ([Consumer.EvCheck r; Consumer.EvProcess r; Consumer.EvSend (acc ++ [pf r])] ++ evs).
        rewrite H5, <- !app_assoc. split; [reflexivity|]. split; [exact H6|].
        split; [unfold sent_batches in *; rewrite flat_map_app, H7; reflexivity|].
        intros x [Hx|[Hx|Hx]]; [discriminate| |].
        -- injection Hx as <-. split; [left; reflexivity | exact Hv].
        -- destruct Hx as [Hx|Hx]; [discriminate|].
           destruct (H8 x Hx) as [Hi Hb]. split; [right; exact Hi | exact Hb].
    + unfold Consumer.bind, Consumer.emit, Consumer.in_generator.
      cbn [fst snd Consumer.wld Consumer.trace Consumer.consumer].
      match goal with |- context [Consumer.pull_records _ _ _ rest _ ?s1] =>
        destruct (IH' acc s1 Hinv) as (H1 & H2 & H3 & H4 & evs & H5 & H6 & H7 & H8)
      end.
      destruct (Consumer.pull_records _ _ _ rest _ _) as [s2 o2]. cbn in *.
      rewrite Hv. repeat split; try assumption.
      exists (Consumer.EvCheck r :: evs).
      rewrite H5, <- !app_assoc. split; [reflexivity|]. split; [exact H6|]. split; [exact H7|].
      intros x [Hx|Hx]; [discriminate|].
      destruct (H8 x Hx) as [Hi Hb]. split; [right; exact Hi | exact Hb].
Qed.
End PullRecords.

(** X1: a pull whose [get_records] succeeds, whose records are all checked
    without raising and whose sink does not raise, completes: [run] hands
    [send_records] the list of processed valid records once per valid
    record, growing by one each time; invalid records are never processed;
    the iterator ends at [NextShardIterator] and the pull ends with one
    sleep of [sleep_period]. *)
Theorem run_iteration_sends_growing_batches {Out : Type}
    (chk : kinesis_record -> result bool) (proc : kinesis_record -> result Out)
    (send : list Out -> world -> world * result unit) (names : list string)
    (Inv : world -> Prop) (vb : kinesis_record -> bool) (pf : kinesis_record -> Out)
    (records : list kinesis_record) (next : string) (s : Consumer.state Out) :
  (forall b w, Inv w -> snd (send b w) = Ok tt /\ Inv (fst (send b w))) ->
  Inv (Consumer.wld s) ->
  (forall r, In r records -> chk r = Ok (vb r)) ->
  (forall r, In r records -> vb r = true -> proc r = Ok (pf r)) ->
  let r := Consumer.run_iteration chk proc send names (Ok (records, next)) s in
  let c := Consumer.consumer s in
  let batches := growing_batches [] (map pf (List.filter vb records)) in
  snd r = Consumer.Done tt /\
  Consumer.shard_iterator (Consumer.consumer (fst r)) = next /\
  Consumer.wld (fst r) =
    advance (Consumer.sleep_period c) (send_all send batches (Consumer.wld s)) /\
  exists evs,
    Consumer.trace (fst r) =
      Consumer.trace s ++
        Consumer.EvGetRecords (Consumer.shard_iterator c) (Consumer.record_limit c)
        :: Consumer.EvSetIterator next
        :: evs ++ [Consumer.EvSleep (Consumer.sleep_period c)] /\
    sent_batches evs = batches /\
    (forall x, In (Consumer.EvProcess x) evs -> In x records /\ vb x = true).
Proof.
  intros Hsend Hinv Hchk Hproc. cbv zeta.
  unfold Consumer.run_iteration, Consumer.except_throttled, Consumer.pull_body,
    Consumer.bind, Consumer.gets, Consumer.emit, Consumer.in_generator,
    Consumer.set_iterator.
  cbn [fst snd Consumer.wld Consumer.trace Consumer.consumer].
  match goal with |- context [Consumer.pull_records _ _ _ _ [] ?s1] =>
    destruct (pull_records_valid chk proc send Inv Hsend vb pf records Hchk Hproc [] s1 Hinv)
      as (H1 & H2 & H3 & H4 & evs & H5 & H6 & H7 & H8)
  end.
  destruct (Consumer.pull_records _ _ _ _ [] _) as [s2 o2]. cbn [fst snd] in *. subst o2.
  unfold Consumer.sleep. cbn [fst snd Consumer.wld Consumer.trace Consumer.consumer].
  rewrite H2. cbn [Consumer.consumer Consumer.shard_iterator Consumer.with_iterator
                   Consumer.sleep_period].
  split; [reflexivity|]. split; [reflexivity|].
  split; [rewrite H3; reflexivity|].
  exists evs. rewrite H5. cbn [Consumer.trace].
  split; [rewrite <- !app_assoc; reflexivity|].
  split; [exact H7 | exact H8].
Qed.






(** The archival sink does not raise on a host whose clock and zone are
    those of [Sample.world0], and keeps them. *)
Lemma raw_send_same_clock (b : list string) (w : world) :
  Sample.same_clock w ->
  snd (Raw.send_records b w) = Ok tt /\ Sample.same_clock (fst (Raw.send_records b w)).
Proof.
  intros [Hn Hu]. unfold Raw.send_records. rewrite Hn, Hu. cbn. 
  split; [reflexivity|]. split; assumption.
Qed.

Lemma run_iteration_sends_growing_batches_witness :
  let r := Consumer.raw_run_iteration
             (Ok ([Sample.record1; Sample.no_prices_record; Sample.record2], "iterator-next"))
             Sample.state0 in
  snd r = Consumer.Done tt /\
  Consumer.shard_iterator (Consumer.consumer (fst r)) = "iterator-next".
Proof.
  destruct (run_iteration_sends_growing_batches Raw.check_record_validity
              Raw.process_record Raw.send_records Consumer.kinesis_module_names
              Sample.same_clock
              (fun r => match Raw.check_record_validity r with Ok b => b | Raise _ => false end)
              (fun r => match Raw.process_record r with Ok p => p | Raise _ => EmptyString end)
              [Sample.record1; Sample.no_prices_record; Sample.record2] "iterator-next"
              Sample.state0)
    as (H1 & H2 & _).
  - exact raw_send_same_clock.
  - split; reflexivity.
  - intros r [<-|[<-|[<-|[]]]]; vm_compute; reflexivity.
  - intros r [<-|[<-|[<-|[]]]]; vm_compute; first [reflexivity | discriminate].
  - split; assumption.
Defined.



Lemma string_app_assoc (a b c : string) : (a ++ b ++ c)%string = ((a ++ b) ++ c)%string.
Proof. induction a as [|x a IH]; [reflexivity|]. exact (f_equal (String x) IH). Qed.

(** ** The processed sink, in general *)

(** X4: when [send_record] can compute the record's key and row, it appends
    the row to the object at that key (reading it first), or creates the
    object with the row; no other object changes, and it returns
    normally. *)
Theorem send_record_appends_row {F : Type} (float_str : F -> string)
    (pr : Processed.processed_record F) (w : world) (k row : string) :
  keyed_row float_str (utcoffset w) pr = Ok (k, row) ->
  let r := Processed.send_record float_str pr w in
  snd r = Ok tt /\ bucket (fst r) = append_row (bucket w) k row /\
  now (fst r) = now w /\ utcoffset (fst r) = utcoffset w /\
  ops (fst r) = ops w ++
    match bucket w !! k with
    | Some old => [GetKey k; GetContents k; SetContents k (old ++ row)%string]
    | None => [GetKey k; NewKey k; SetContents k row]
    end.
Proof.
  unfold keyed_row, Processed.send_record.
  destruct (Processed.format_record_time _ _) as [rt|e]; cbn [result_bind]; [|discriminate].
  destruct (Processed.key_path_of _ _) as [k'|e]; cbn [result_bind]; [|discriminate].
  intros H. injection H as <- <-. cbv zeta. cbn [log_op bucket].
  unfold append_row.
  destruct (bucket w !! k') as [old|]; cbn; repeat split; rewrite <- ?app_assoc; reflexivity.
Qed.

(** When it cannot, it raises before touching the bucket. *)
Lemma send_record_raise {F : Type} (float_str : F -> string)
    (pr : Processed.processed_record F) (w : world) (e : exn) :
  keyed_row float_str (utcoffset w) pr = Raise e ->
  Processed.send_record float_str pr w = (w, Raise e).
Proof.
  unfold keyed_row, Processed.send_record.
  destruct (Processed.format_record_time _ _) as [rt|e']; cbn [result_bind]; [|congruence].
  destruct (Processed.key_path_of _ _) as [k'|e']; cbn [result_bind]; [discriminate|congruence].
Qed.

Lemma lookup_append_row (b : gmap string string) (k0 row k : string) :
  append_row b k0 row !! k =
  if String.eqb k0 k then Some (default "" (b !! k) ++ row)%string else b !! k.
Proof.
  unfold append_row. destruct (String.eqb_spec k0 k) as [<-|Hne].
  - rewrite lookup_insert_eq. destruct (b !! k0); reflexivity.
  - rewrite lookup_insert_ne by exact Hne. reflexivity.
Qed.

(** X5: [send_records] over records whose keys can all be computed
    returns normally and leaves, under every key, the previous content of
    its object followed by the batch's rows for that key, in batch order;
    objects under other keys are unchanged. *)
Theorem send_records_appends_in_order {F : Type} (float_str : F -> string)
    (prs : list (Processed.processed_record F)) (rows : list (string * string)) :
  forall w : world,
  Forall2 (fun pr kr => keyed_row float_str (utcoffset w) pr = Ok kr) prs rows ->
  let r := Processed.send_records float_str prs w in
  snd r = Ok tt /\
  forall k, bucket (fst r) !! k =
    match rows_under k rows with
    | [] => bucket w !! k
    | rs => Some (default "" (bucket w !! k) ++ String.concat "" rs)%string
    end.
Proof.
  revert rows.
  induction prs as [|pr prs IH]; intros rows w Hf; inversion Hf as [|pr' [k0 row] prs' rows' Hk Hrest]; subst.
  - split; [reflexivity|]. intros k. reflexivity.
  - cbv zeta. cbn [Processed.send_records].
    destruct (send_record_appends_row float_str pr w k0 row Hk) as (Hs & Hb & _ & Hu & _).
    destruct (Processed.send_record float_str pr w) as [w1 r1] eqn:Es.
    cbn [fst snd] in Hs, Hb, Hu. subst r1.
    rewrite <- Hu in Hrest.
    destruct (IH rows' w1 Hrest) as [IHs IHb]. split; [exact IHs|].
    intros k. rewrite IHb, Hb, lookup_append_row.
    unfold rows_under. cbn [List.filter fst snd map].
    destruct (String.eqb k0 k) eqn:Ek; cbn [map snd].
    + destruct (map snd (List.filter _ rows')) as [|r0 rs] eqn:Er.
      * cbn. reflexivity.
      * cbn [default]. unfold id.
        change (String.concat "" (row :: r0 :: rs))
          with (row ++ String.concat "" (r0 :: rs))%string.
        rewrite <- string_app_assoc. reflexivity.
    + reflexivity.
Qed.

(** X6: [send_records] stops at the first record whose key cannot be
    computed: it raises that exception, the records before it have been
    written and the ones after it are not. *)
Theorem send_records_stops_at_failure {F : Type} (float_str : F -> string)
    (pre : list (Processed.processed_record F)) (pr : Processed.processed_record F)
    (post : list (Processed.processed_record F)) (e : exn) :
  forall w : world,
  Forall (fun p => exists kr, keyed_row float_str (utcoffset w) p = Ok kr) pre ->
  keyed_row float_str (utcoffset w) pr = Raise e ->
  snd (Processed.send_records float_str pre w) = Ok tt /\
  Processed.send_records float_str (pre ++ pr :: post) w =
    (fst (Processed.send_records float_str pre w), Raise e).
Proof.
  induction pre as [|p pre IH]; intros w Hpre Hpr.
  - cbn. rewrite (send_record_raise float_str pr w e Hpr). split; reflexivity.
  - inversion Hpre as [|p' pre' [[k row] Hk] Hrest]; subst.
    destruct (send_record_appends_row float_str p w k row Hk) as (Hs & _ & _ & Hu & _).
    cbn [app Processed.send_records].
    destruct (Processed.send_record float_str p w) as [w1 r1] eqn:Es.
    cbn [fst snd] in Hs, Hu. subst r1.
    rewrite <- Hu in Hrest, Hpr.
    exact (IH w1 Hrest Hpr).
Qed.



Lemma send_record_appends_row_witness :
  let r := Processed.send_record Sample.float_text Sample.eur_close Sample.world0 in
  snd r = Ok tt /\
  bucket (fst r) = append_row (bucket Sample.world0) "EUR/2020/01/01/TODAYS-DATA.csv"
                     ("EUR,2020-01-01 23:59,0.9,0.91" ++ newline)%string.
Proof.
  destruct (send_record_appends_row Sample.float_text Sample.eur_close Sample.world0
              "EUR/2020/01/01/TODAYS-DATA.csv" ("EUR,2020-01-01 23:59,0.9,0.91" ++ newline)%string)
    as (H1 & H2 & _); [vm_compute; reflexivity|].
  split; assumption.
Defined.

Lemma send_records_appends_in_order_witness :
  let r := Processed.send_records Sample.float_text [Sample.eur_open; Sample.eur_close]
             Sample.world0 in
  snd r = Ok tt /\
  bucket (fst r) !! "EUR/2020/01/01/TODAYS-DATA.csv" =
    Some ("EUR,2020-01-01 00:00,0.9,0.91" ++ newline ++
          "EUR,2020-01-01 23:59,0.9,0.91" ++ newline)%string.
Proof.
  destruct (send_records_appends_in_order Sample.float_text [Sample.eur_open; Sample.eur_close]
              [("EUR/2020/01/01/TODAYS-DATA.csv", ("EUR,2020-01-01 00:00,0.9,0.91" ++ newline)%string);
               ("EUR/2020/01/01/TODAYS-DATA.csv", ("EUR,2020-01-01 23:59,0.9,0.91" ++ newline)%string)]
              Sample.world0)
    as [H1 H2].
  { repeat constructor; vm_compute; reflexivity. }
  split; [exact H1|]. rewrite H2. vm_compute. reflexivity.
Defined.

Lemma send_records_stops_at_failure_witness :
  Processed.send_records Sample.float_text
    ([Sample.eur_open] ++ Sample.eur_1899 :: [Sample.eur_close]) Sample.world0 =
  (fst (Processed.send_records Sample.float_text [Sample.eur_open] Sample.world0),
   Raise ValueError).
Proof.
  apply (send_records_stops_at_failure Sample.float_text [Sample.eur_open] Sample.eur_1899
           [Sample.eur_close] ValueError Sample.world0).
  - constructor; [|constructor]. eexists. vm_compute. reflexivity.
  - vm_compute. reflexivity.
Defined.

(** ** The archival sink and the producer cycle *)

Lemma dec_aux_nonempty (fuel : nat) (n : Z) (acc : list ascii) : dec_aux fuel n acc <> [].
Proof.
  revert n acc. induction fuel as [|f IH]; intros n acc; cbn; [discriminate|].
  destruct (n <? 10); [discriminate | apply IH].
Qed.

Lemma py_str_nat_nonempty (n : Z) : list_ascii_of_string (py_str_nat n) <> [].
Proof.
  unfold py_str_nat. rewrite list_ascii_of_string_of_list_ascii. apply dec_aux_nonempty.
Qed.

Lemma pad2_nonempty (n : Z) : list_ascii_of_string (pad2 n) <> [].
Proof.
  unfold pad2. destruct (n <? 10); [discriminate | apply py_str_nat_nonempty].
Qed.

Lemma split_ws_field (l1 l2 : list ascii) :
  l1 <> [] -> Forall (fun c => py_is_space c = false) l1 ->
  split_ws_aux (l1 ++ " "%char :: l2) [] = string_of_list_ascii l1 :: split_ws_aux l2 [].
Proof.
  intros Hne Hf. rewrite split_ws_aux_word by exact Hf. rewrite app_nil_r.
  cbn [split_ws_aux]. replace (py_is_space " "%char) with true by reflexivity.
  destruct (rev l1) as [|c r] eqn:E.
  - apply (f_equal (@rev ascii)) in E. rewrite rev_involutive in E. contradiction.
  - rewrite <- E, rev_involutive. reflexivity.
Qed.

Lemma split_ws_last (l : list ascii) :
  l <> [] -> Forall (fun c => py_is_space c = false) l ->
  split_ws_aux l [] = [string_of_list_ascii l].
Proof.
  intros Hne Hf. rewrite <- (app_nil_r l) at 1.
  rewrite split_ws_aux_word by exact Hf. rewrite app_nil_r. cbn [split_ws_aux].
  destruct (rev l) as [|c r] eqn:E.
  - apply (f_equal (@rev ascii)) in E. rewrite rev_involutive in E. contradiction.
  - rewrite <- E, rev_involutive. reflexivity.
Qed.

Lemma raw_date_fields (dt : PyTime.datetime) :
  py_split (PyTime.strftime_aux dt (list_ascii_of_string "%Y %m %d")) =
  [py_str_nat (PyTime.year dt); pad2 (PyTime.month dt); pad2 (PyTime.day dt)].
Proof.
  cbn [list_ascii_of_string PyTime.strftime_aux].
  rewrite string_app_empty_r.
  unfold py_split.
  rewrite !list_ascii_of_string_app. cbn [list_ascii_of_string app].
  rewrite split_ws_field; [| apply py_str_nat_nonempty
                           | apply all_digits_not_space, py_str_nat_digits].
  rewrite list_ascii_of_string_app. cbn [list_ascii_of_string].
  rewrite split_ws_field; [| apply pad2_nonempty
                           | apply all_digits_not_space, pad2_digits].
  rewrite split_ws_last; [| apply pad2_nonempty
                          | apply all_digits_not_space, pad2_digits].
  rewrite !string_of_list_ascii_of_string. reflexivity.
Qed.

(** X8: [send_records] of the archival consumer writes exactly one new
    object, at the key [Y/mm/dd/FOREX-RAW-DATA-<epoch seconds>] for the
    host's local date, holding the batch joined by newlines; it never reads
    an existing object. When the local year is outside 1900..9999 it raises
    [ValueError] and changes nothing. *)
Theorem raw_send_records_one_object (batch : list string) (w : world) :
  let '(y, m, d) := PyTime.local_date (utcoffset w) (now w) in
  let k := (py_str_nat y ++ "/" ++ pad2 m ++ "/" ++ pad2 d ++ "/FOREX-RAW-DATA-"
              ++ py_str_int (now w))%string in
  Raw.send_records batch w =
    if (1900 <=? y) && (y <=? 9999) then
      ({| bucket := <[k := String.concat newline batch]> (bucket w); now := now w;
          utcoffset := utcoffset w;
          ops := ops w ++ [NewKey k; SetContents k (String.concat newline batch)] |},
       Ok tt)
    else (w, Raise ValueError).
Proof.
  unfold Raw.send_records, PyTime.fromtimestamp, PyTime.local_date.
  destruct (PyTime.civil_from_days _) as [[y m] d].
  destruct (1 <=? y) eqn:E1; destruct (y <=? 9999) eqn:E2; destruct (1900 <=? y) eqn:E3;
    cbn [andb result_bind];
    apply Z.leb_le in E1 || apply Z.leb_gt in E1;
    apply Z.leb_le in E2 || apply Z.leb_gt in E2;
    apply Z.leb_le in E3 || apply Z.leb_gt in E3;
    try (exfalso; lia); try reflexivity;
    unfold PyTime.strftime; cbn [PyTime.year].
  - replace (y <? 1900) with false by (symmetry; apply Z.ltb_ge; lia).
    rewrite raw_date_fields. cbn [PyTime.year PyTime.month PyTime.day].
    unfold set_contents, log_op. cbn. rewrite <- app_assoc. reflexivity.
  - replace (y <? 1900) with true by (symmetry; apply Z.ltb_lt; lia). reflexivity.
Qed.

Lemma no_newline_app (a b : string) :
  no_newline a -> no_newline b -> no_newline (a ++ b).
Proof.
  unfold no_newline. rewrite list_ascii_of_string_app. apply Forall_app_intro.
Qed.

Lemma split_sep_concat (batch : list string) :
  batch <> [] -> Forall no_newline batch ->
  py_split_sep (String.concat newline batch) nl = batch.
Proof.
  unfold py_split_sep.
  induction batch as [|x t IH]; intros Hne Hf; [contradiction|].
  inversion Hf as [|x' t' Hx Ht]; subst.
  assert (Hx' : Forall (fun c => Ascii.eqb c nl = false) (list_ascii_of_string x)).
  { unfold no_newline in Hx. induction Hx; constructor; [|assumption].
    apply Ascii.eqb_neq. assumption. }
  destruct t as [|y t].
  - cbn [String.concat]. rewrite <- (app_nil_r (list_ascii_of_string x)).
    rewrite split_sep_aux_word by exact Hx'. cbn.
    rewrite app_nil_r, rev_involutive, string_of_list_ascii_of_string. reflexivity.
  - change (String.concat newline (x :: y :: t))
      with (x ++ newline ++ String.concat newline (y :: t))%string.
    rewrite !list_ascii_of_string_app.
    rewrite split_sep_aux_word by exact Hx'. cbn [list_ascii_of_string newline app].
    cbn [split_sep_aux]. replace (Ascii.eqb (ascii_of_nat 10) nl) with true by reflexivity.
    rewrite app_nil_r, rev_involutive, string_of_list_ascii_of_string.
    f_equal. apply IH; [discriminate | exact Ht].
Qed.

Lemma escape_char_no_newline (c : ascii) : Forall (fun d => d <> nl) (Json.escape_char c).
Proof.
  destruct c as [[] [] [] [] [] [] [] []]; vm_compute;
    repeat constructor; discriminate.
Qed.

Lemma dumps_string_no_newline (s : string) : no_newline (Json.dumps_string s).
Proof.
  unfold no_newline, Json.dumps_string.
  cbn [list_ascii_of_string]. constructor; [discriminate|].
  rewrite list_ascii_of_string_app, list_ascii_of_string_of_list_ascii.
  apply Forall_app_intro; [|repeat constructor; discriminate].
  induction (list_ascii_of_string s) as [|c l IH]; [constructor|].
  cbn [map concat]. apply Forall_app_intro; [apply escape_char_no_newline | exact IH].
Qed.

Lemma raw_process_record_no_newline (r : kinesis_record) (p : string) :
  Raw.process_record r = Ok p -> no_newline p.
Proof.
  unfold Raw.process_record. intros H. injection H as <-.
  cbn [Json.dumps map String.concat].
  repeat (apply no_newline_app || apply dumps_string_no_newline
          || (unfold no_newline; cbn; repeat constructor; discriminate)).
Qed.

Lemma parse_escape_char (c : ascii) (rest acc : list ascii) :
  json_safe c = true ->
  Json.parse_str_body (Json.escape_char c ++ rest) acc = Json.parse_str_body rest (c :: acc).
Proof.
  intros H. destruct c as [[] [] [] [] [] [] [] []];
    try (vm_compute in H; discriminate H); reflexivity.
Qed.

Lemma parse_escaped (l rest acc : list ascii) :
  Forall (fun c => json_safe c = true) l ->
  Json.parse_str_body (List.concat (List.map Json.escape_char l) ++ Json.dquote :: rest) acc
  = Some (string_of_list_ascii (rev acc ++ l), rest).
Proof.
  revert acc. induction l as [|c l IH]; intros acc Hf.
  - cbn. rewrite app_nil_r. reflexivity.
  - inversion Hf; subst. cbn [List.map List.concat]. rewrite <- app_assoc.
    rewrite parse_escape_char by assumption. rewrite IH by assumption.
    cbn [rev]. rewrite <- app_assoc. reflexivity.
Qed.

Lemma list_dumps_string (s : string) :
  list_ascii_of_string (Json.dumps_string s)
  = Json.dquote :: List.concat (List.map Json.escape_char (list_ascii_of_string s)) ++ [Json.dquote].
Proof.
  unfold Json.dumps_string. cbn [list_ascii_of_string].
  rewrite list_ascii_of_string_app, list_ascii_of_string_of_list_ascii. reflexivity.
Qed.

Lemma parse_value_string (f : nat) (v : string) (rest : list ascii) :
  safe_str v ->
  Json.parse_value (S f) (" "%char :: Json.dquote :: esc v ++ Json.dquote :: rest)
  = Some (Json.JString v, rest).
Proof.
  intros Hv. cbn [Json.parse_value].
  change (Json.skip_ws (" "%char :: Json.dquote :: ?t)) with (Json.dquote :: t).
  cbn -[Json.parse_str_body Json.parse_number esc Json.parse_members Json.parse_elements].
  unfold esc. rewrite parse_escaped by exact Hv.
  cbn [rev app]. rewrite string_of_list_ascii_of_string. reflexivity.
Qed.

Lemma parse_member_string (f : nat) (k v : string) (rest : list ascii) acc :
  safe_str k -> safe_str v ->
  Json.parse_members (S (S f))
    (Json.dquote :: esc k ++ Json.dquote :: ":"%char :: " "%char :: Json.dquote :: esc v ++ Json.dquote :: rest) acc
  = match Json.skip_ws rest with
    | ","%char :: r3 => Json.parse_members (S f) r3 ((k, Json.JString v) :: acc)
    | "}"%char :: r3 => Some (Json.JObject (rev ((k, Json.JString v) :: acc)), r3)
    | _ => None
    end.
Proof.
  intros Hk Hv. cbn [Json.parse_members].
  change (Json.skip_ws (Json.dquote :: ?t)) with (Json.dquote :: t).
  cbn -[Json.parse_str_body Json.parse_number esc Json.parse_members Json.parse_elements Json.parse_value].
  unfold esc at 1. rewrite parse_escaped by exact Hk.
  cbn [rev app]. rewrite string_of_list_ascii_of_string.
  cbn -[Json.parse_str_body Json.parse_number esc Json.parse_members Json.parse_elements Json.parse_value].
  rewrite Ascii.eqb_refl. change (Json.is_ws ":"%char) with false. cbn iota beta.
  rewrite parse_value_string by exact Hv. reflexivity.
Qed.

Lemma parse_members_space (f : nat) (l : list ascii) acc :
  Json.parse_members (S f) (" "%char :: l) acc = Json.parse_members (S f) l acc.
Proof. reflexivity. Qed.

Lemma parse_value_object_start (f : nat) (t : list ascii) :
  Json.parse_value (S f) ("{"%char :: Json.dquote :: t) = Json.parse_members f (Json.dquote :: t) [].
Proof. reflexivity. Qed.

Lemma list_dumps_obj3 (k1 v1 k2 v2 k3 v3 : string) :
  list_ascii_of_string (Json.dumps (obj3 k1 v1 k2 v2 k3 v3)) =
  "{"%char :: Json.dquote :: esc k1 ++ Json.dquote :: ":"%char :: " "%char :: Json.dquote :: esc v1 ++
  Json.dquote :: ","%char :: " "%char :: Json.dquote :: esc k2 ++ Json.dquote :: ":"%char :: " "%char ::
  Json.dquote :: esc v2 ++ Json.dquote :: ","%char :: " "%char :: Json.dquote :: esc k3 ++ Json.dquote ::
  ":"%char :: " "%char :: Json.dquote :: esc v3 ++ [Json.dquote; "}"%char].
Proof.
  unfold obj3, esc. cbn [Json.dumps List.map String.concat].
  rewrite !list_ascii_of_string_app, !list_dumps_string. cbn [list_ascii_of_string].
  repeat (rewrite <- app_assoc); cbn [app]; repeat (rewrite <- app_assoc); cbn [app].
  reflexivity.
Qed.

Lemma parse_obj3 (k1 v1 k2 v2 k3 v3 : string) (n : nat) :
  safe_str k1 -> safe_str v1 -> safe_str k2 -> safe_str v2 -> safe_str k3 -> safe_str v3 ->
  Json.parse_value (S (S (S (S (S (S (S n)))))))
    (list_ascii_of_string (Json.dumps (obj3 k1 v1 k2 v2 k3 v3)))
  = Some (obj3 k1 v1 k2 v2 k3 v3, []).
Proof.
  intros H1 H2 H3 H4 H5 H6. rewrite list_dumps_obj3.
  rewrite parse_value_object_start, parse_member_string by assumption.
  change (Json.skip_ws (","%char :: ?t)) with (","%char :: t). cbn iota beta.
  rewrite parse_members_space, parse_member_string by assumption.
  change (Json.skip_ws (","%char :: ?t)) with (","%char :: t). cbn iota beta. rewrite parse_members_space, parse_member_string by assumption.
  reflexivity.
Qed.

Lemma loads_obj3 (k1 v1 k2 v2 k3 v3 : string) :
  safe_str k1 -> safe_str v1 -> safe_str k2 -> safe_str v2 -> safe_str k3 -> safe_str v3 ->
  Json.loads (Json.dumps (obj3 k1 v1 k2 v2 k3 v3)) = Ok (obj3 k1 v1 k2 v2 k3 v3).
Proof.
  intros H1 H2 H3 H4 H5 H6. unfold Json.loads.
  replace (3 * length (list_ascii_of_string (Json.dumps (obj3 k1 v1 k2 v2 k3 v3))) + 3)%nat
    with (S (S (S (S (S (S (S (3 * length (list_ascii_of_string (Json.dumps (obj3 k1 v1 k2 v2 k3 v3))) - 4))))))))%nat
    by (rewrite list_dumps_obj3; cbn [length]; lia).
  rewrite parse_obj3 by assumption. reflexivity.
Qed.

Section ProducerCycle.
Variable get_exchange_rate : string -> result string.
Variable put_record : string -> string -> string -> result unit.

Lemma first_failure_all_ok (pairs texts : list string) :
  Forall2 (fun c t => get_exchange_rate c = Ok t) pairs texts ->
  Producer.first_failure (List.map get_exchange_rate pairs) = Ok texts.
Proof.
  induction 1 as [|c t cs ts Hc _ IH]; [reflexivity|].
  cbn [List.map Producer.first_failure]. rewrite Hc, IH. reflexivity.
Qed.

Lemma publish_ok_prefix (p : Producer.forex_producer) (pre : list string) (vs : list Json.json)
    (rest : list string) :
  Forall2 (fun t v => Json.loads t = Ok v) pre vs ->
  Forall (fun v => put_record (Producer.stream_name p) (Json.dumps v) (Producer.partition_key p) = Ok tt) vs ->
  Producer.publish put_record p (pre ++ rest) =
  (List.map (put_event p) vs ++ fst (Producer.publish put_record p rest),
   snd (Producer.publish put_record p rest)).
Proof.
  induction 1 as [|t v ts vs' Ht _ IH]; intros Hput.
  - cbn. destruct (Producer.publish put_record p rest); reflexivity.
  - inversion Hput as [|v' vs'' Hv Hvs]; subst.
    cbn [app Producer.publish]. rewrite Ht, Hv, (IH Hvs). reflexivity.
Qed.

(** X11: when every pair's request succeeds, every answer parses as JSON
    and every [put_record] succeeds, one cycle of [run] requests all pairs,
    then publishes each answer re-encoded by [json.dumps], in the order of
    the pairs, on the producer's stream and partition key, then sleeps 60
    seconds. *)
Theorem run_cycle_publishes_every_response (p : Producer.forex_producer)
    (texts : list string) (vs : list Json.json) :
  Forall2 (fun c t => get_exchange_rate c = Ok t) (Producer.currencies p) texts ->
  Forall2 (fun t v => Json.loads t = Ok v) texts vs ->
  Forall (fun v => put_record (Producer.stream_name p) (Json.dumps v) (Producer.partition_key p) = Ok tt) vs ->
  Producer.run_cycle get_exchange_rate put_record p =
  (List.map Producer.Fetch (Producer.currencies p) ++ List.map (put_event p) vs
     ++ [Producer.Sleep 60], Ok tt).
Proof.
  intros Hget Hloads Hput. unfold Producer.run_cycle, Producer.pool_map.
  rewrite (first_failure_all_ok _ _ Hget).
  pose proof (publish_ok_prefix p texts vs [] Hloads Hput) as E.
  rewrite app_nil_r in E. rewrite E. cbn. rewrite app_nil_r. reflexivity.
Qed.

(** X12: when all requests succeed but one answer is not JSON, the cycle
    publishes the answers before it, then raises the parse error: the
    answers after it are not published and the cycle does not sleep. *)
Theorem run_cycle_stops_at_unparseable_response (p : Producer.forex_producer)
    (pre : list string) (bad : string) (post : list string) (vs : list Json.json) (e : exn) :
  Forall2 (fun c t => get_exchange_rate c = Ok t) (Producer.currencies p) (pre ++ bad :: post) ->
  Forall2 (fun t v => Json.loads t = Ok v) pre vs ->
  Forall (fun v => put_record (Producer.stream_name p) (Json.dumps v) (Producer.partition_key p) = Ok tt) vs ->
  Json.loads bad = Raise e ->
  Producer.run_cycle get_exchange_rate put_record p =
  (List.map Producer.Fetch (Producer.currencies p) ++ List.map (put_event p) vs, Raise e).
Proof.
  intros Hget Hloads Hput Hbad. unfold Producer.run_cycle, Producer.pool_map.
  rewrite (first_failure_all_ok _ _ Hget).
  rewrite (publish_ok_prefix p pre vs (bad :: post) Hloads Hput).
  cbn [Producer.publish]. rewrite Hbad. cbn. rewrite app_nil_r. reflexivity.
Qed.
End ProducerCycle.

Lemma safe_str_of_forallb (s : string) :
  forallb json_safe (list_ascii_of_string s) = true -> safe_str s.
Proof.
  unfold safe_str. induction (list_ascii_of_string s) as [|c l IH]; cbn; intros H;
    [constructor|].
  apply andb_prop in H as [Hc Hl]. constructor; [exact Hc | exact (IH Hl)].
Qed.

(** Checks a [Forall]/[Forall2] over concrete lists, one element at a time. *)
Ltac forall_by_vm :=
  repeat (first [apply List.Forall2_cons | apply List.Forall_cons]; [vm_compute; reflexivity|]);
  first [apply List.Forall2_nil | apply List.Forall_nil].

(** X9: splitting an archived object on newlines, as [str.split('\n')]
    does, gives back exactly the batch of records [process_record]
    encoded: [json.dumps] escapes every newline of a field, so no record
    spills over two lines. *)
Theorem raw_archive_splits_into_records (records : list kinesis_record) (batch : list string)
    (w : world) :
  records <> [] ->
  Forall2 (fun r p => Raw.process_record r = Ok p) records batch ->
  snd (Raw.send_records batch w) = Ok tt ->
  exists k s, ops (fst (Raw.send_records batch w)) = ops w ++ [NewKey k; SetContents k s] /\
    bucket (fst (Raw.send_records batch w)) !! k = Some s /\
    py_split_sep s nl = batch.
Proof.
  intros Hne Hp Hok.
  pose proof (raw_send_records_one_object batch w) as E.
  destruct (PyTime.local_date (utcoffset w) (now w)) as [[y m] d].
  destruct ((1900 <=? y) && (y <=? 9999)); rewrite E in Hok |- *; [|discriminate Hok].
  cbn [fst bucket ops].
  eexists _, _. split; [reflexivity|]. split; [apply lookup_insert_eq|].
  apply split_sep_concat.
  - destruct Hp; [contradiction | discriminate].
  - clear Hne E Hok. induction Hp as [|r p rs ps Hr _ IH]; constructor; [|exact IH].
    exact (raw_process_record_no_newline r p Hr).
Qed.

(** X10: each line [process_record] writes to the archive decodes with
    [json.loads] back to an object whose ["Data"], ["PartitionKey"] and
    ["SequenceNumber"] are the record's own, provided these fields hold only
    characters that JSON escapes reversibly (printable ASCII, tab, newline,
    carriage return, backspace, form feed). *)
Theorem raw_record_line_decodes (r : kinesis_record) (p : string) :
  safe_str (Data r) -> safe_str (PartitionKey r) -> safe_str (SequenceNumber r) ->
  Raw.process_record r = Ok p ->
  exists v, Json.loads p = Ok v /\
    Json.getitem_str v "Data" = Ok (Json.JString (Data r)) /\
    Json.getitem_str v "PartitionKey" = Ok (Json.JString (PartitionKey r)) /\
    Json.getitem_str v "SequenceNumber" = Ok (Json.JString (SequenceNumber r)).
Proof.
  intros H1 H2 H3 Hp. unfold Raw.process_record in Hp. injection Hp as <-.
  exists (obj3 "Data" (Data r) "PartitionKey" (PartitionKey r) "SequenceNumber" (SequenceNumber r)).
  split.
  - apply (loads_obj3 "Data" (Data r) "PartitionKey" (PartitionKey r) "SequenceNumber"
             (SequenceNumber r)); try assumption; apply safe_str_of_forallb; vm_compute; reflexivity.
  - split; [reflexivity | split; reflexivity].
Qed.

Lemma raw_archive_splits_into_records_witness :
  let batch := [Json.dumps (obj3 "Data" Sample.quote_payload "PartitionKey" "filler"
                              "SequenceNumber" "1");
                Json.dumps (obj3 "Data" Sample.quote_payload "PartitionKey" "filler"
                              "SequenceNumber" "2")] in
  Forall2 (fun r p => Raw.process_record r = Ok p) [Sample.record1; Sample.record2] batch /\
  snd (Raw.send_records batch Sample.world0) = Ok tt /\
  exists k s,
    ops (fst (Raw.send_records batch Sample.world0)) = ops Sample.world0 ++ [NewKey k; SetContents k s] /\
    bucket (fst (Raw.send_records batch Sample.world0)) !! k = Some s /\
    py_split_sep s nl = batch.
Proof.
  intros batch.
  assert (Hp : Forall2 (fun r p => Raw.process_record r = Ok p)
                 [Sample.record1; Sample.record2] batch) by (unfold batch; forall_by_vm).
  assert (Hok : snd (Raw.send_records batch Sample.world0) = Ok tt)
    by (vm_compute; reflexivity).
  split; [exact Hp|]. split; [exact Hok|].
  apply (raw_archive_splits_into_records [Sample.record1; Sample.record2] batch Sample.world0);
    [discriminate | exact Hp | exact Hok].
Defined.

Lemma raw_record_line_decodes_witness :
  safe_str (Data Sample.record1) /\
  exists v, Json.loads (Json.dumps (obj3 "Data" Sample.quote_payload "PartitionKey" "filler"
                                      "SequenceNumber" "1")) = Ok v /\
    Json.getitem_str v "Data" = Ok (Json.JString Sample.quote_payload) /\
    Json.getitem_str v "PartitionKey" = Ok (Json.JString "filler") /\
    Json.getitem_str v "SequenceNumber" = Ok (Json.JString "1").
Proof.
  assert (Hd : safe_str (Data Sample.record1))
    by (apply safe_str_of_forallb; vm_compute; reflexivity).
  split; [exact Hd|].
  apply (raw_record_line_decodes Sample.record1); [exact Hd | | | reflexivity];
    apply safe_str_of_forallb; vm_compute; reflexivity.
Defined.

Lemma run_cycle_publishes_every_response_witness :
  let texts := repeat "{}"%string 11 in
  let vs := repeat (Json.JObject []) 11 in
  Forall2 (fun c t => Sample.rates_all_ok c = Ok t) (Producer.currencies Producer.main_producer) texts /\
  Forall2 (fun t v => Json.loads t = Ok v) texts vs /\
  Producer.run_cycle Sample.rates_all_ok Sample.put_record_ok Producer.main_producer =
  (List.map Producer.Fetch (Producer.currencies Producer.main_producer)
     ++ List.map (put_event Producer.main_producer) vs ++ [Producer.Sleep 60], Ok tt).
Proof.
  intros texts vs.
  assert (Hg : Forall2 (fun c t => Sample.rates_all_ok c = Ok t)
                 (Producer.currencies Producer.main_producer) texts)
    by (unfold texts; forall_by_vm).
  assert (Hl : Forall2 (fun t v => Json.loads t = Ok v) texts vs)
    by (unfold texts, vs; forall_by_vm).
  split; [exact Hg|]. split; [exact Hl|].
  apply (run_cycle_publishes_every_response Sample.rates_all_ok Sample.put_record_ok
           Producer.main_producer texts vs Hg Hl).
  unfold vs; forall_by_vm.
Defined.

Lemma run_cycle_stops_at_unparseable_response_witness :
  Json.loads "<html>" = Raise ValueError /\
  Producer.run_cycle Sample.rates_usd_cad_garbled Sample.put_record_ok Producer.main_producer =
  (List.map Producer.Fetch (Producer.currencies Producer.main_producer)
     ++ List.map (put_event Producer.main_producer) [Json.JObject []], Raise ValueError).
Proof.
  split; [vm_compute; reflexivity|].
  apply (run_cycle_stops_at_unparseable_response Sample.rates_usd_cad_garbled Sample.put_record_ok
           Producer.main_producer ["{}"%string] "<html>" (repeat "{}"%string 9) [Json.JObject []]
           ValueError); first [forall_by_vm | vm_compute; reflexivity].
Defined.
